(** * hector_pose_estimation_core: measurement envelope, GPS and height
      models, generic quaternion system model

    A shallow embedding of
    - [measurement_update.h]  (class [Update_]),
    - [measurements/gps.cpp]  (classes [GPSModel], [GPS]),
    - [measurements/height.cpp] (classes [HeightModel], [HeightBaroCommon],
      [Height]),
    - [system/generic_quaternion_system_model.cpp]
      (class [GenericQuaternionSystemModel]),
    - [measurement_model.cpp] (the constructor of [MeasurementModel]),
    - [quadrotor_simple_controller.cpp] (the PID controllers and the
      thrust limits of the simple quadrotor controller).

    Numbers.  A C++ [double] is idealised as a real number: rounding,
    overflow and infinities are not modelled.  The one place where the
    sources produce a NaN on purpose ([0.0/0.0] in [GPS::getVector]) is
    modelled with the explicit value [NaN] of the type [double] below.

    Objects.  Mutable objects are passed explicitly.  The
    [GlobalReference] of an estimator is reached through pointers
    ([GPS::reference_], [PoseEstimation::globalReference()]), so it lives in
    a store indexed by addresses; a null pointer is [None]. *)

From Stdlib Require Import Reals Lra Lia ZArith NArith List Bool QArith_base.
Import ListNotations.

Local Open Scope R_scope.

(** ** Vectors, matrices and state indices *)

(** The value of a [double] that may have been produced by [0.0/0.0]. *)
Inductive double : Type :=
| NaN : double
| Num : R -> double.

Definition is_nan (d : double) : bool :=
  match d with NaN => true | Num _ => false end.

(** [0.0/0.0] and, generally, a quotient of two numbers: a zero divisor
    under a zero dividend is the invalid operation. *)
Definition double_div (a b : R) : double :=
  if Req_dec_T b 0 then (if Req_dec_T a 0 then NaN else Num (a / b))
  else Num (a / b).

(** A BFL [ColumnVector]: indices start at 1.  Writing outside the vector
    is a failed assertion in the library; here it leaves the vector as it
    is. *)
Fixpoint vec_set {A : Type} (v : list A) (i : nat) (a : A) : list A :=
  match v with
  | [] => []
  | x :: r =>
      match i with
      | O => x :: r
      | S O => a :: r
      | S j => x :: vec_set r j a
      end
  end.

Definition vec_get {A : Type} (v : list A) (i : nat) : option A :=
  match i with
  | O => None
  | S j => nth_error v j
  end.

(** The components of the state vector ([State::QUATERNION_W], ...). *)
Inductive StateIndex : Type :=
| QUATERNION_W | QUATERNION_X | QUATERNION_Y | QUATERNION_Z
| RATE_X | RATE_Y | RATE_Z
| POSITION_X | POSITION_Y | POSITION_Z
| VELOCITY_X | VELOCITY_Y | VELOCITY_Z.

Definition StateIndex_eq_dec (i j : StateIndex) : {i = j} + {i <> j}.
Proof. decide equality. Defined.

Definition StateVector : Type := StateIndex -> R.
Definition SymmetricMatrix : Type := StateIndex -> StateIndex -> R.

(** [x(i) = a] *)
Definition vset (x : StateVector) (i : StateIndex) (a : R) : StateVector :=
  fun j => if StateIndex_eq_dec j i then a else x j.

(** [Q(i,j) = a] *)
Definition mset (Q : SymmetricMatrix) (i j : StateIndex) (a : R)
  : SymmetricMatrix :=
  fun k l =>
    if StateIndex_eq_dec k i
    then (if StateIndex_eq_dec l j then a else Q k l)
    else Q k l.

(** The sub-vectors of the state. *)
Definition is_quaternion (i : StateIndex) : bool :=
  match i with
  | QUATERNION_W | QUATERNION_X | QUATERNION_Y | QUATERNION_Z => true
  | _ => false
  end.

Definition is_rate (i : StateIndex) : bool :=
  match i with RATE_X | RATE_Y | RATE_Z => true | _ => false end.

Definition is_position (i : StateIndex) : bool :=
  match i with POSITION_X | POSITION_Y | POSITION_Z => true | _ => false end.

Definition is_velocity (i : StateIndex) : bool :=
  match i with VELOCITY_X | VELOCITY_Y | VELOCITY_Z => true | _ => false end.

(** [SystemStatus] is an unsigned bit mask; a flag is active in a status
    when the bitwise conjunction is not zero ([if (flags & STATE_X)]). *)
Definition SystemStatus : Type := N.

Definition active (flags mask : SystemStatus) : bool :=
  negb (N.eqb (N.land flags mask) 0).

(** ** The global reference *)

Module GlobalReference.

(** Modelled from the spec: the position of a [GlobalReference];
    [global_reference.h] and its implementation are not among the
    sources.  Section 4.2: [setPosition(lat, lon)]
    sets/overwrites the anchor; [fromWGS84] and [toWGS84] perform a
    local-tangent-plane (equirectangular) conversion around the anchor;
    [fromNorthEast] rotates a velocity into the local frame using the
    heading reference; [setAltitude]/[altitude] anchor the vertical
    reference.  The scale of the tangent plane (metres per radian towards
    north and towards east) is a function [Radius] of the latitude of
    the anchor and is left open. *)
Record Position : Type := {
  latitude : R;
  longitude : R;
  altitude : R
}.

(** Modelled from the spec: the class [GlobalReference] (not among the
    sources), an anchor position and a heading reference. *)
Record t : Type := {
  position : Position;
  heading : R
}.

(** Modelled from the spec: [GlobalReference::setPosition] (not among the
    sources) sets/overwrites the anchor. *)
Definition setPosition (r : t) (lat lon : R) : t :=
  {| position := {| latitude := lat; longitude := lon;
                    altitude := altitude (position r) |};
     heading := heading r |}.

(** Modelled from the spec: [GlobalReference::setAltitude] (not among the
    sources) anchors the vertical reference. *)
Definition setAltitude (r : t) (alt : R) : t :=
  {| position := {| latitude := latitude (position r);
                    longitude := longitude (position r);
                    altitude := alt |};
     heading := heading r |}.

Section Conversion.
Variable Radius : R -> R * R.

(** Modelled from the spec: [GlobalReference::fromWGS84] (not among the
    sources), the equirectangular conversion around the anchor. *)
Definition fromWGS84 (r : t) (lat lon : R) : R * R :=
  let '(north, east) := Radius (latitude (position r)) in
  (north * (lat - latitude (position r)),
   east * (lon - longitude (position r))).

(** Modelled from the spec: [GlobalReference::toWGS84] (not among the
    sources), the inverse conversion. *)
Definition toWGS84 (r : t) (x y : R) : R * R :=
  let '(north, east) := Radius (latitude (position r)) in
  (latitude (position r) + x / north,
   longitude (position r) + y / east).

(** Modelled from the spec: [GlobalReference::fromNorthEast] (not among
    the sources) rotates a velocity into the local frame using the heading
    reference. *)
Definition fromNorthEast (r : t) (north east : R) : R * R :=
  (north * cos (heading r) + east * sin (heading r),
   east * cos (heading r) - north * sin (heading r)).
End Conversion.

End GlobalReference.

(** ** The estimator, as far as the measurement models use it *)

(** A pointer to a [GlobalReference]. *)
Definition pointer : Type := option nat.

Definition pointer_eqb (p q : pointer) : bool :=
  match p, q with
  | None, None => true
  | Some a, Some b => Nat.eqb a b
  | _, _ => false
  end.

Definition Store : Type := nat -> GlobalReference.t.

Definition store_set (s : Store) (a : nat) (r : GlobalReference.t) : Store :=
  fun b => if Nat.eqb b a then r else s b.

(** [PoseEstimation]: [getState()] returns [state_]; [globalReference()]
    returns the address of the member [global_reference_]. *)
Record PoseEstimation : Type := {
  getState : StateVector;
  globalReference : nat
}.

(** ** The measurement envelope ([measurement_update.h]) *)

Module Update.

(** [Covariance] is the [NoiseCovariance] type of the measurement model:
    a matrix given by its rows. *)
Definition Covariance : Type := list (list R).

(** [Update_<MeasurementModel>]: the members [y_], [R_] and
    [has_covariance_]. *)
Record Update_ : Type := {
  y_ : list R;
  R_ : Covariance;
  has_covariance_ : bool
}.

(** [virtual void setValue(Vector const& y) { y_ = y; }] *)
Definition setValue (u : Update_) (y : list R) : Update_ :=
  {| y_ := y; R_ := R_ u; has_covariance_ := has_covariance_ u |}.

(** [virtual void setValue(double y) { y_(1) = y; }] *)
Definition setValue_double (u : Update_) (y : R) : Update_ :=
  {| y_ := vec_set (y_ u) 1 y; R_ := R_ u;
     has_covariance_ := has_covariance_ u |}.

(** [setCovariance(Covariance const& R) { R_ = R; has_covariance_ = true; }] *)
Definition setCovariance (u : Update_) (C : Covariance) : Update_ :=
  {| y_ := y_ u; R_ := C; has_covariance_ := true |}.

Definition getVector (u : Update_) : list R := y_ u.
Definition getCovariance (u : Update_) : Covariance := R_ u.
Definition hasCovariance (u : Update_) : bool := has_covariance_ u.

(** The three constructors.  [fresh] is the content of the vector just
    allocated by [y_(MeasurementModel::MeasurementDimension)] and [R0] the
    default-constructed [R_]; the sources do not fix either. *)
Definition Update_new (fresh : list R) (R0 : Covariance) : Update_ :=
  {| y_ := fresh; R_ := R0; has_covariance_ := false |}.

Definition Update_of_vector (fresh : list R) (R0 : Covariance) (y : list R)
  : Update_ :=
  setValue (Update_new fresh R0) y.

Definition Update_of_double (fresh : list R) (R0 : Covariance) (y : R)
  : Update_ :=
  setValue_double (Update_new fresh R0) y.

(** The mutators of the class, as calls that a client can issue in any
    order ([operator=] is [setValue]). *)
Inductive call : Type :=
| SetValue (y : list R)
| SetValueDouble (y : R)
| SetCovariance (C : Covariance).

Definition step (u : Update_) (c : call) : Update_ :=
  match c with
  | SetValue y => setValue u y
  | SetValueDouble y => setValue_double u y
  | SetCovariance C => setCovariance u C
  end.

Definition run (u : Update_) (cs : list call) : Update_ :=
  fold_left step cs u.

(** The covariance passed by the last [setCovariance] among [cs], if
    any. *)
Fixpoint last_covariance (cs : list call) (acc : option Covariance)
  : option Covariance :=
  match cs with
  | [] => acc
  | SetCovariance C :: r => last_covariance r (Some C)
  | _ :: r => last_covariance r acc
  end.

(** [u] answers [hasCovariance] and [getCovariance] as after the calls
    summarised by [last]: no [setCovariance] so far, or the last one with
    the covariance [C]. *)
Definition covariance_as (u : Update_) (last : option Covariance) : Prop :=
  match last with
  | None => hasCovariance u = false
  | Some C => hasCovariance u = true /\ getCovariance u = C
  end.

End Update.

(** ** The GPS measurement ([measurements/gps.cpp]) *)

Module GPSMeasurement.

(** [GPSUpdate]: a fix, angles in radians. *)
Record GPSUpdate : Type := {
  latitude : R;
  longitude : R;
  velocity_north : R;
  velocity_east : R
}.

(** [GPS]: the members [reference_], [y_] and [last_].  [timedout] is the
    answer of [Measurement::timedout()], a method of the base class that
    is not among the sources. *)
Record GPS : Type := {
  reference_ : pointer;
  y_ : list double;
  last_ : GPSUpdate;
  timedout : bool
}.

(** [void GPS::onReset() { reference_ = 0; }] *)
Definition onReset (g : GPS) : GPS :=
  {| reference_ := None; y_ := y_ g; last_ := last_ g;
     timedout := timedout g |}.

Section Model.
Variable Radius : R -> R * R.

(** [GPS::getVector]: the vector is written into the member [y_] and a
    reference to it is returned. *)
Definition getVector (g : GPS) (st : Store) (update : GPSUpdate)
  : GPS * list double :=
  match reference_ g with
  | None =>
      let nan := double_div 0 0 in
      let y4 := vec_set (y_ g) 4 nan in
      let y3 := vec_set y4 3 nan in
      let y2 := vec_set y3 2 nan in
      let y1 := vec_set y2 1 nan in
      ({| reference_ := reference_ g; y_ := y1; last_ := last_ g;
          timedout := timedout g |}, y1)
  | Some a =>
      let '(px, py) :=
        GlobalReference.fromWGS84 Radius (st a)
          (latitude update) (longitude update) in
      let y12 := vec_set (vec_set (y_ g) 1 (Num px)) 2 (Num py) in
      let '(vx, vy) :=
        GlobalReference.fromNorthEast (st a)
          (velocity_north update) (velocity_east update) in
      let y34 := vec_set (vec_set y12 3 (Num vx)) 4 (Num vy) in
      ({| reference_ := reference_ g; y_ := y34; last_ := update;
          timedout := timedout g |}, y34)
  end.

(** What a call of [beforeUpdate] leaves behind: the returned value and
    the three objects it can reach. *)
Record Outcome : Type := {
  returned : bool;
  gps_after : GPS;
  estimator_after : PoseEstimation;
  store_after : Store
}.

(** [GPS::beforeUpdate] *)
Definition beforeUpdate (g : GPS) (estimator : PoseEstimation) (st : Store)
  (update : GPSUpdate) : Outcome :=
  (* reset reference position if GPS has not been updated for a while *)
  let reference1 := if timedout g then None else reference_ g in
  (* find new reference position *)
  if negb (pointer_eqb reference1 (Some (globalReference estimator))) then
    let a := globalReference estimator in
    let ref1 :=
      GlobalReference.setPosition (st a) (latitude update) (longitude update) in
    let state := getState estimator in
    let '(new_latitude, new_longitude) :=
      GlobalReference.toWGS84 Radius ref1
        (- state POSITION_X) (- state POSITION_Y) in
    let ref2 := GlobalReference.setPosition ref1 new_latitude new_longitude in
    {| returned := true;
       gps_after := {| reference_ := Some a; y_ := y_ g; last_ := last_ g;
                       timedout := timedout g |};
       estimator_after := estimator;
       store_after := store_set st a ref2 |}
  else
    {| returned := true;
       gps_after := {| reference_ := reference1; y_ := y_ g; last_ := last_ g;
                       timedout := timedout g |};
       estimator_after := estimator;
       store_after := st |}.

End Model.

End GPSMeasurement.

(** ** The height measurement ([measurements/height.cpp]) *)

Module HeightMeasurement.

(** Reading [v(i)]; outside the vector the library fails an assertion,
    here the value is 0. *)
Definition vec_read (v : list R) (i : nat) : R :=
  match vec_get v i with
  | Some a => a
  | None => 0
  end.

(** [HeightModel]: the members [stddev_] and [elevation_], and the scratch
    vector [y_] of the base class. *)
Record HeightModel : Type := {
  stddev_ : R;
  elevation_ : R;
  y_ : list R
}.

Definition getElevation (m : HeightModel) : R := elevation_ m.

Definition setElevation (m : HeightModel) (elevation : R) : HeightModel :=
  {| stddev_ := stddev_ m; elevation_ := elevation; y_ := y_ m |}.

(** [HeightModel::HeightModel()]; [fresh] is the content of the vector the
    base class allocates with the measurement dimension 1. *)
Definition HeightModel_new (fresh : R) : HeightModel :=
  {| stddev_ := 10; elevation_ := 0; y_ := [fresh] |}.

(** [HeightModel::ExpectedValueGet]; [x_] is the state the filter has
    passed as conditional argument. *)
Definition ExpectedValueGet (m : HeightModel) (x_ : StateVector)
  : HeightModel * list R :=
  let y := vec_set (y_ m) 1 (x_ POSITION_Z + getElevation m) in
  ({| stddev_ := stddev_ m; elevation_ := elevation_ m; y_ := y |}, y).

(** [HeightBaroCommon] *)
Record HeightBaroCommon : Type := {
  auto_elevation_ : bool;
  elevation_initialized_ : bool
}.

Definition HeightBaroCommon_new : HeightBaroCommon :=
  {| auto_elevation_ := true; elevation_initialized_ := false |}.

(** [void HeightBaroCommon::onReset()] *)
Definition HeightBaroCommon_onReset (c : HeightBaroCommon) : HeightBaroCommon :=
  {| auto_elevation_ := auto_elevation_ c; elevation_initialized_ := false |}.

(** [HeightBaroCommon::resetElevation]: the returned altitude, the object
    itself and the store holding the global reference. *)
Definition resetElevation (c : HeightBaroCommon) (estimator : PoseEstimation)
  (st : Store) (altitude_func : unit -> R) : R * HeightBaroCommon * Store :=
  let a := globalReference estimator in
  if negb (elevation_initialized_ c) then
    let state := getState estimator in
    let st' :=
      store_set st a
        (GlobalReference.setAltitude (st a)
           (altitude_func tt - state POSITION_Z)) in
    (GlobalReference.altitude (GlobalReference.position (st' a)),
     {| auto_elevation_ := auto_elevation_ c; elevation_initialized_ := true |},
     st')
  else
    (GlobalReference.altitude (GlobalReference.position (st a)), c, st).

(** [Height]: a [Measurement_<HeightModel>] that is also a
    [HeightBaroCommon]. *)
Record Height : Type := {
  model : HeightModel;
  common : HeightBaroCommon
}.

Definition Height_new (fresh : R) : Height :=
  {| model := HeightModel_new fresh; common := HeightBaroCommon_new |}.

(** [void Height::onReset() { HeightBaroCommon::onReset(); }] *)
Definition onReset (h : Height) : Height :=
  {| model := model h; common := HeightBaroCommon_onReset (common h) |}.

Record Outcome : Type := {
  returned : bool;
  height_after : Height;
  estimator_after : PoseEstimation;
  store_after : Store
}.

(** [Height::beforeUpdate] *)
Definition beforeUpdate (h : Height) (estimator : PoseEstimation) (st : Store)
  (update : Update.Update_) : Outcome :=
  let sample := vec_read (Update.getVector update) 1 in
  let '(elevation, c', st') :=
    resetElevation (common h) estimator st (fun _ => sample) in
  {| returned := true;
     height_after := {| model := setElevation (model h) elevation;
                        common := c' |};
     estimator_after := estimator;
     store_after := st' |}.

(** A run of the filter as the height model sees it: before each sample
    the filter may have moved the state, and the other clients of the
    global reference of the estimator (the GPS, the barometer, a second
    height measurement) may have written it; [others] is what they did to
    the store since the previous sample. *)
Fixpoint samples (h : Height) (addr : nat) (st : Store)
  (l : list ((Store -> Store) * StateVector * Update.Update_))
  : Height * Store :=
  match l with
  | [] => (h, st)
  | (others, x, update) :: r =>
      let o := beforeUpdate h {| getState := x; globalReference := addr |}
                 (others st) update in
      samples (height_after o) addr (store_after o) r
  end.

(** The store as the other clients alone leave it over such a run. *)
Definition written_by_others (st : Store)
  (l : list ((Store -> Store) * StateVector * Update.Update_)) : Store :=
  fold_left (fun s item => fst (fst item) s) l st.

(** [others] does not write the altitude of the reference at [addr]. *)
Definition keeps_altitude (addr : nat) (others : Store -> Store) : Prop :=
  forall s : Store,
    GlobalReference.altitude (GlobalReference.position (others s addr))
    = GlobalReference.altitude (GlobalReference.position (s addr)).

End HeightMeasurement.

(** ** The process model ([system/generic_quaternion_system_model.cpp]) *)

Module Vec3.
Record t : Type := { x : R; y : R; z : R }.
End Vec3.

Module Quat.
Record t : Type := { w : R; x : R; y : R; z : R }.

(** The Hamilton product. *)
Definition mul (p q : t) : t :=
  {| w := w p * w q - x p * x q - y p * y q - z p * z q;
     x := w p * x q + x p * w q + y p * z q - z p * y q;
     y := w p * y q - x p * z q + y p * w q + z p * x q;
     z := w p * z q + x p * y q - y p * x q + z p * w q |}.

Definition conj (q : t) : t :=
  {| w := w q; x := - x q; y := - y q; z := - z q |}.

Definition scale (k : R) (q : t) : t :=
  {| w := k * w q; x := k * x q; y := k * y q; z := k * z q |}.

(** The vector [v] as the quaternion [[0, v]]. *)
Definition pure (v : Vec3.t) : t :=
  {| w := 0; x := Vec3.x v; y := Vec3.y v; z := Vec3.z v |}.

(** [v] taken from the body frame to the navigation frame by [q]:
    the vector part of [q * [0,v] * conj q]. *)
Definition rotate (q : t) (v : Vec3.t) : Vec3.t :=
  let r := mul (mul q (pure v)) (conj q) in
  {| Vec3.x := x r; Vec3.y := y r; Vec3.z := z r |}.
End Quat.

Module GenericQuaternionSystemModel.

(** The status flags used by the model.  The enumeration that gives them
    their values ([types.h]) is not among the sources, so the values are
    parameters. *)
Record Flags : Type := {
  STATE_POSITION_XY : SystemStatus;
  STATE_POSITION_Z : SystemStatus;
  STATE_VELOCITY_XY : SystemStatus;
  STATE_VELOCITY_Z : SystemStatus;
  STATE_ROLLPITCH : SystemStatus;
  STATE_RATE_XY : SystemStatus;
  STATE_RATE_Z : SystemStatus
}.

(** [State], through the accessors the model calls ([state.h] is not among
    the sources).  An index is negative when the state has no such
    sub-vector. *)
Record State : Type := {
  getOrientation : Quat.t;
  getRate : Vec3.t;
  getVelocity : Vec3.t;
  getAcceleration : Vec3.t;
  getSystemStatus : SystemStatus;
  getMeasurementStatus : SystemStatus;
  getOrientationIndex : Z;
  getRateIndex : Z;
  getPositionIndex : Z;
  getVelocityIndex : Z;
  getAccelerationIndex : Z
}.

(** The members of the model: the parameters, and [rate] and
    [acceleration] as [prepareUpdate] has left them (the rate and
    acceleration sub-vectors of the state, or the IMU reading plus the
    estimated bias). *)
Record Model : Type := {
  gravity_ : R;
  angular_acceleration_stddev_ : R;
  rate_stddev_ : R;
  acceleration_stddev_ : R;
  velocity_stddev_ : R;
  rate : Vec3.t;
  acceleration : Vec3.t
}.

(** [index >= 0] *)
Definition present (index : Z) : bool := (0 <=? index)%Z.

(** [a > b] on [double] *)
Definition Rgtb (a b : R) : bool := if Rlt_dec b a then true else false.

Section Model.
Variable F : Flags.
(** [#ifdef USE_RATE_SYSTEM_MODEL] *)
Variable USE_RATE_SYSTEM_MODEL : bool.

(** [GenericQuaternionSystemModel::getDerivative] *)
Definition getDerivative (m : Model) (x_dot : StateVector) (state : State)
  : StateVector :=
  let q := getOrientation state in
  let v := getVelocity state in
  let rate := rate m in
  let acceleration := acceleration m in
  let x_dot :=
    if present (getOrientationIndex state) then
      let x_dot := vset x_dot QUATERNION_W
        (0.5 * ((- Vec3.x rate) * Quat.x q + (- Vec3.y rate) * Quat.y q
                + (- Vec3.z rate) * Quat.z q)) in
      let x_dot := vset x_dot QUATERNION_X
        (0.5 * ((Vec3.x rate) * Quat.w q + (Vec3.z rate) * Quat.y q
                + (- Vec3.y rate) * Quat.z q)) in
      let x_dot := vset x_dot QUATERNION_Y
        (0.5 * ((Vec3.y rate) * Quat.w q + (- Vec3.z rate) * Quat.x q
                + (Vec3.x rate) * Quat.z q)) in
      vset x_dot QUATERNION_Z
        (0.5 * ((Vec3.z rate) * Quat.w q + (Vec3.y rate) * Quat.x q
                + (- Vec3.x rate) * Quat.y q))
    else x_dot in
  let x_dot :=
    if active (getSystemStatus state) (STATE_VELOCITY_XY F)
       && present (getVelocityIndex state) then
      let x_dot := vset x_dot VELOCITY_X
        ((Quat.w q * Quat.w q + Quat.x q * Quat.x q - Quat.y q * Quat.y q
          - Quat.z q * Quat.z q) * Vec3.x acceleration
         + (2.0 * Quat.x q * Quat.y q - 2.0 * Quat.w q * Quat.z q)
           * Vec3.y acceleration
         + (2.0 * Quat.x q * Quat.z q + 2.0 * Quat.w q * Quat.y q)
           * Vec3.z acceleration) in
      vset x_dot VELOCITY_Y
        ((2.0 * Quat.x q * Quat.y q + 2.0 * Quat.w q * Quat.z q)
           * Vec3.x acceleration
         + (Quat.w q * Quat.w q - Quat.x q * Quat.x q + Quat.y q * Quat.y q
            - Quat.z q * Quat.z q) * Vec3.y acceleration
         + (2.0 * Quat.y q * Quat.z q - 2.0 * Quat.w q * Quat.x q)
           * Vec3.z acceleration)
    else x_dot in
  let x_dot :=
    if active (getSystemStatus state) (STATE_VELOCITY_Z F)
       && present (getVelocityIndex state) then
      vset x_dot VELOCITY_Z
        ((2.0 * Quat.x q * Quat.z q - 2.0 * Quat.w q * Quat.y q)
           * Vec3.x acceleration
         + (2.0 * Quat.y q * Quat.z q + 2.0 * Quat.w q * Quat.x q)
           * Vec3.y acceleration
         + (Quat.w q * Quat.w q - Quat.x q * Quat.x q - Quat.y q * Quat.y q
            + Quat.z q * Quat.z q) * Vec3.z acceleration
         + gravity_ m)
    else x_dot in
  let x_dot :=
    if active (getSystemStatus state) (STATE_POSITION_XY F) then
      let x_dot := vset x_dot POSITION_X (Vec3.x v) in
      vset x_dot POSITION_Y (Vec3.y v)
    else x_dot in
  if active (getSystemStatus state) (STATE_POSITION_Z F) then
    vset x_dot POSITION_Z (Vec3.z v)
  else x_dot.

(** [Q(i,i) = Q(j,j) = Q(k,k) = value] *)
Definition mset3 (Q : SymmetricMatrix) (i j k : StateIndex) (value : R)
  : SymmetricMatrix :=
  let Q := mset Q k k value in
  let Q := mset Q j j (Q k k) in
  mset Q i i (Q j j).

(** [GenericQuaternionSystemModel::getSystemNoise] *)
Definition getSystemNoise (m : Model) (Q : SymmetricMatrix) (state : State)
  (init : bool) : SymmetricMatrix :=
  let Q :=
    if init then
      let Q :=
        if present (getRateIndex state) then
          mset3 Q RATE_X RATE_Y RATE_Z (angular_acceleration_stddev_ m ^ 2)
        else Q in
      let Q :=
        if present (getPositionIndex state) then
          mset3 Q POSITION_X POSITION_Y POSITION_Z (velocity_stddev_ m ^ 2)
        else Q in
      if present (getRateIndex state) then
        mset3 Q VELOCITY_X VELOCITY_Y VELOCITY_Z (acceleration_stddev_ m ^ 2)
      else Q
    else Q in
  if Rgtb (rate_stddev_ m) 0.0 && present (getOrientationIndex state) then
    let q := getOrientation state in
    let rate_variance_4 := 0.25 * rate_stddev_ m ^ 2 in
    let Q := mset Q QUATERNION_W QUATERNION_W
      (rate_variance_4 * (Quat.x q * Quat.x q + Quat.y q * Quat.y q
                          + Quat.z q * Quat.z q)) in
    let Q := mset Q QUATERNION_X QUATERNION_X
      (rate_variance_4 * (Quat.w q * Quat.w q + Quat.y q * Quat.y q
                          + Quat.z q * Quat.z q)) in
    let Q := mset Q QUATERNION_Y QUATERNION_Y
      (rate_variance_4 * (Quat.w q * Quat.w q + Quat.x q * Quat.x q
                          + Quat.z q * Quat.z q)) in
    mset Q QUATERNION_Z QUATERNION_Z
      (rate_variance_4 * (Quat.w q * Quat.w q + Quat.x q * Quat.x q
                          + Quat.y q * Quat.y q))
  else Q.

(** [GenericQuaternionSystemModel::getStatusFlags] *)
Definition getStatusFlags (state : State) : SystemStatus :=
  let flags := getMeasurementStatus state in
  let flags :=
    if active flags (STATE_POSITION_XY F)
    then N.lor flags (STATE_VELOCITY_XY F) else flags in
  let flags :=
    if active flags (STATE_POSITION_Z F)
    then N.lor flags (STATE_VELOCITY_Z F) else flags in
  let flags :=
    if active flags (STATE_VELOCITY_XY F)
    then N.lor flags (STATE_ROLLPITCH F) else flags in
  let flags :=
    if active flags (STATE_ROLLPITCH F)
    then N.lor flags (STATE_RATE_XY F) else flags in
  if USE_RATE_SYSTEM_MODEL then flags
  else N.lor flags (N.lor (STATE_RATE_XY F) (STATE_RATE_Z F)).

End Model.

(** The flags are independent capabilities: no mask is empty and no two
    masks share a bit. *)
Definition independent (F : Flags) : Prop :=
  let l := [STATE_POSITION_XY F; STATE_POSITION_Z F; STATE_VELOCITY_XY F;
            STATE_VELOCITY_Z F; STATE_ROLLPITCH F; STATE_RATE_XY F;
            STATE_RATE_Z F] in
  Forall (fun a => a <> 0%N) l
  /\ ForallOrdPairs (fun a b => N.land a b = 0%N) l.

(** The readings and bias estimates [prepareUpdate] takes from the
    estimator: [imu_->getRate()], [imu_->getAcceleration()],
    [gyro_->getModel()->getBias()] and
    [accelerometer_->getModel()->getBias()]. *)
Record Inputs : Type := {
  imu_rate : Vec3.t;
  imu_acceleration : Vec3.t;
  gyro_bias : Vec3.t;
  accelerometer_bias : Vec3.t
}.

Definition Vec3_add (a b : Vec3.t) : Vec3.t :=
  {| Vec3.x := Vec3.x a + Vec3.x b;
     Vec3.y := Vec3.y a + Vec3.y b;
     Vec3.z := Vec3.z a + Vec3.z b |}.

(** [GenericQuaternionSystemModel::prepareUpdate]: the returned value and
    the model with its members [acceleration] and [rate] written. *)
Definition prepareUpdate (m : Model) (state : State) (inputs : Inputs)
  : bool * Model :=
  let acceleration' :=
    if present (getAccelerationIndex state) then getAcceleration state
    else Vec3_add (imu_acceleration inputs) (accelerometer_bias inputs) in
  let rate' :=
    if present (getRateIndex state) then getRate state
    else Vec3_add (imu_rate inputs) (gyro_bias inputs) in
  (true,
   {| gravity_ := gravity_ m;
      angular_acceleration_stddev_ := angular_acceleration_stddev_ m;
      rate_stddev_ := rate_stddev_ m;
      acceleration_stddev_ := acceleration_stddev_ m;
      velocity_stddev_ := velocity_stddev_ m;
      rate := rate';
      acceleration := acceleration' |}).

(** [GenericQuaternionSystemModel::getPrior], on the covariance [P] of the
    state. *)
Definition getPrior (P : SymmetricMatrix) (state : State) : SymmetricMatrix :=
  let P :=
    if present (getOrientationIndex state) then
      let P := mset P QUATERNION_W QUATERNION_W (0.25 * 1.0) in
      let P := mset P QUATERNION_X QUATERNION_X (0.25 * 1.0) in
      let P := mset P QUATERNION_Y QUATERNION_Y (0.25 * 1.0) in
      mset P QUATERNION_Z QUATERNION_Z (0.25 * 1.0)
    else P in
  let P :=
    if present (getRateIndex state) then
      let P := mset P RATE_X RATE_X ((0.0 * PI / 180.0) ^ 2) in
      let P := mset P RATE_Y RATE_Y ((0.0 * PI / 180.0) ^ 2) in
      mset P RATE_Z RATE_Z ((0.0 * PI / 180.0) ^ 2)
    else P in
  let P :=
    if present (getPositionIndex state) then
      let P := mset P POSITION_X POSITION_X 0.0 in
      let P := mset P POSITION_Y POSITION_Y 0.0 in
      mset P POSITION_Z POSITION_Z 0.0
    else P in
  if present (getVelocityIndex state) then
    let P := mset P VELOCITY_X VELOCITY_X 0.0 in
    let P := mset P VELOCITY_Y VELOCITY_Y 0.0 in
    mset P VELOCITY_Z VELOCITY_Z 0.0
  else P.

(** The system matrix [A]: rows and columns are state components. *)
Definition SystemMatrix : Type := StateIndex -> StateIndex -> R.

Section Linearization.
Variable F : Flags.

(** [GenericQuaternionSystemModel::getStateJacobian] *)
Definition getStateJacobian (m : Model) (A : SystemMatrix) (state : State)
  : SystemMatrix :=
  let q := getOrientation state in
  let rate := rate m in
  let acceleration := acceleration m in
  let A :=
    if present (getOrientationIndex state) then
      let A := mset A QUATERNION_W QUATERNION_X (-0.5 * Vec3.x rate) in
      let A := mset A QUATERNION_W QUATERNION_Y (-0.5 * Vec3.y rate) in
      let A := mset A QUATERNION_W QUATERNION_Z (-0.5 * Vec3.z rate) in
      let A := mset A QUATERNION_X QUATERNION_W (0.5 * Vec3.x rate) in
      let A := mset A QUATERNION_X QUATERNION_Y (0.5 * Vec3.z rate) in
      let A := mset A QUATERNION_X QUATERNION_Z (-0.5 * Vec3.y rate) in
      let A := mset A QUATERNION_Y QUATERNION_W (0.5 * Vec3.y rate) in
      let A := mset A QUATERNION_Y QUATERNION_X (-0.5 * Vec3.z rate) in
      let A := mset A QUATERNION_Y QUATERNION_Z (0.5 * Vec3.x rate) in
      let A := mset A QUATERNION_Z QUATERNION_W (0.5 * Vec3.z rate) in
      let A := mset A QUATERNION_Z QUATERNION_X (0.5 * Vec3.y rate) in
      let A := mset A QUATERNION_Z QUATERNION_Y (-0.5 * Vec3.x rate) in
      if present (getRateIndex state) then
        let A := mset A QUATERNION_W RATE_X (-0.5 * Quat.x q) in
        let A := mset A QUATERNION_W RATE_Y (-0.5 * Quat.y q) in
        let A := mset A QUATERNION_W RATE_Z (-0.5 * Quat.z q) in
        let A := mset A QUATERNION_X RATE_X (0.5 * Quat.w q) in
        let A := mset A QUATERNION_X RATE_Y (-0.5 * Quat.z q) in
        let A := mset A QUATERNION_X RATE_Z (0.5 * Quat.y q) in
        let A := mset A QUATERNION_Y RATE_X (0.5 * Quat.z q) in
        let A := mset A QUATERNION_Y RATE_Y (0.5 * Quat.w q) in
        let A := mset A QUATERNION_Y RATE_Z (-0.5 * Quat.x q) in
        let A := mset A QUATERNION_Z RATE_X (-0.5 * Quat.y q) in
        let A := mset A QUATERNION_Z RATE_Y (0.5 * Quat.x q) in
        mset A QUATERNION_Z RATE_Z (0.5 * Quat.w q)
      else A
    else A in
  let A :=
    if present (getVelocityIndex state) && present (getOrientationIndex state)
    then
      let A :=
        if active (getSystemStatus state) (STATE_VELOCITY_XY F) then
          let A := mset A VELOCITY_X QUATERNION_W
            (-2.0 * Quat.z q * Vec3.y acceleration
             + 2.0 * Quat.y q * Vec3.z acceleration
             + 2.0 * Quat.w q * Vec3.x acceleration) in
          let A := mset A VELOCITY_X QUATERNION_X
            (2.0 * Quat.y q * Vec3.y acceleration
             + 2.0 * Quat.z q * Vec3.z acceleration
             + 2.0 * Quat.x q * Vec3.x acceleration) in
          let A := mset A VELOCITY_X QUATERNION_Y
            (-2.0 * Quat.y q * Vec3.x acceleration
             + 2.0 * Quat.x q * Vec3.y acceleration
             + 2.0 * Quat.w q * Vec3.z acceleration) in
          let A := mset A VELOCITY_X QUATERNION_Z
            (-2.0 * Quat.z q * Vec3.x acceleration
             - 2.0 * Quat.w q * Vec3.y acceleration
             + 2.0 * Quat.x q * Vec3.z acceleration) in
          let A := mset A VELOCITY_Y QUATERNION_W
            (2.0 * Quat.z q * Vec3.x acceleration
             - 2.0 * Quat.x q * Vec3.z acceleration
             + 2.0 * Quat.w q * Vec3.y acceleration) in
          let A := mset A VELOCITY_Y QUATERNION_X
            (2.0 * Quat.y q * Vec3.x acceleration
             - 2.0 * Quat.x q * Vec3.y acceleration
             - 2.0 * Quat.w q * Vec3.z acceleration) in
          let A := mset A VELOCITY_Y QUATERNION_Y
            (2.0 * Quat.x q * Vec3.x acceleration
             + 2.0 * Quat.z q * Vec3.z acceleration
             + 2.0 * Quat.y q * Vec3.y acceleration) in
          mset A VELOCITY_Y QUATERNION_Z
            (2.0 * Quat.w q * Vec3.x acceleration
             - 2.0 * Quat.z q * Vec3.y acceleration
             + 2.0 * Quat.y q * Vec3.z acceleration)
        else
          let A := mset A VELOCITY_X QUATERNION_W 0.0 in
          let A := mset A VELOCITY_X QUATERNION_X 0.0 in
          let A := mset A VELOCITY_X QUATERNION_Y 0.0 in
          let A := mset A VELOCITY_X QUATERNION_Z 0.0 in
          let A := mset A VELOCITY_Y QUATERNION_W 0.0 in
          let A := mset A VELOCITY_Y QUATERNION_X 0.0 in
          let A := mset A VELOCITY_Y QUATERNION_Y 0.0 in
          mset A VELOCITY_Y QUATERNION_Z 0.0 in
      if active (getSystemStatus state) (STATE_VELOCITY_Z F) then
        let A := mset A VELOCITY_Z QUATERNION_W
          (-2.0 * Quat.y q * Vec3.x acceleration
           + 2.0 * Quat.x q * Vec3.y acceleration
           + 2.0 * Quat.w q * Vec3.z acceleration) in
        let A := mset A VELOCITY_Z QUATERNION_X
          (2.0 * Quat.z q * Vec3.x acceleration
           + 2.0 * Quat.w q * Vec3.y acceleration
           - 2.0 * Quat.x q * Vec3.z acceleration) in
        let A := mset A VELOCITY_Z QUATERNION_Y
          (-2.0 * Quat.w q * Vec3.x acceleration
           + 2.0 * Quat.z q * Vec3.y acceleration
           - 2.0 * Quat.y q * Vec3.z acceleration) in
        mset A VELOCITY_Z QUATERNION_Z
          (2.0 * Quat.x q * Vec3.x acceleration
           + 2.0 * Quat.y q * Vec3.y acceleration
           + 2.0 * Quat.z q * Vec3.z acceleration)
      else
        let A := mset A VELOCITY_Z QUATERNION_W 0.0 in
        let A := mset A VELOCITY_Z QUATERNION_X 0.0 in
        let A := mset A VELOCITY_Z QUATERNION_Y 0.0 in
        mset A VELOCITY_Z QUATERNION_Z 0.0
    else A in
  if present (getPositionIndex state) && present (getVelocityIndex state) then
    let A :=
      if active (getSystemStatus state) (STATE_POSITION_XY F) then
        let A := mset A POSITION_X VELOCITY_X 1.0 in
        mset A POSITION_Y VELOCITY_Y 1.0
      else
        let A := mset A POSITION_X VELOCITY_X 0.0 in
        mset A POSITION_Y VELOCITY_Y 0.0 in
    if active (getSystemStatus state) (STATE_POSITION_Z F) then
      mset A POSITION_Z VELOCITY_Z 1.0
    else
      mset A POSITION_Z VELOCITY_Z 0.0
  else A.

End Linearization.

(** The state seen as a vector: reading and writing the component [j]
    through the accessors of [State].  The position is not among the
    accessors the model calls, so its components read 0 and writing them
    changes nothing the model reads. *)
Definition get_component (state : State) (j : StateIndex) : R :=
  match j with
  | QUATERNION_W => Quat.w (getOrientation state)
  | QUATERNION_X => Quat.x (getOrientation state)
  | QUATERNION_Y => Quat.y (getOrientation state)
  | QUATERNION_Z => Quat.z (getOrientation state)
  | RATE_X => Vec3.x (getRate state)
  | RATE_Y => Vec3.y (getRate state)
  | RATE_Z => Vec3.z (getRate state)
  | VELOCITY_X => Vec3.x (getVelocity state)
  | VELOCITY_Y => Vec3.y (getVelocity state)
  | VELOCITY_Z => Vec3.z (getVelocity state)
  | POSITION_X | POSITION_Y | POSITION_Z => 0
  end.

Definition set_component (state : State) (j : StateIndex) (t : R) : State :=
  let q := getOrientation state in
  let r := getRate state in
  let v := getVelocity state in
  let q' :=
    match j with
    | QUATERNION_W => {| Quat.w := t; Quat.x := Quat.x q; Quat.y := Quat.y q;
                         Quat.z := Quat.z q |}
    | QUATERNION_X => {| Quat.w := Quat.w q; Quat.x := t; Quat.y := Quat.y q;
                         Quat.z := Quat.z q |}
    | QUATERNION_Y => {| Quat.w := Quat.w q; Quat.x := Quat.x q; Quat.y := t;
                         Quat.z := Quat.z q |}
    | QUATERNION_Z => {| Quat.w := Quat.w q; Quat.x := Quat.x q;
                         Quat.y := Quat.y q; Quat.z := t |}
    | _ => q
    end in
  let r' :=
    match j with
    | RATE_X => {| Vec3.x := t; Vec3.y := Vec3.y r; Vec3.z := Vec3.z r |}
    | RATE_Y => {| Vec3.x := Vec3.x r; Vec3.y := t; Vec3.z := Vec3.z r |}
    | RATE_Z => {| Vec3.x := Vec3.x r; Vec3.y := Vec3.y r; Vec3.z := t |}
    | _ => r
    end in
  let v' :=
    match j with
    | VELOCITY_X => {| Vec3.x := t; Vec3.y := Vec3.y v; Vec3.z := Vec3.z v |}
    | VELOCITY_Y => {| Vec3.x := Vec3.x v; Vec3.y := t; Vec3.z := Vec3.z v |}
    | VELOCITY_Z => {| Vec3.x := Vec3.x v; Vec3.y := Vec3.y v; Vec3.z := t |}
    | _ => v
    end in
  {| getOrientation := q';
     getRate := r';
     getVelocity := v';
     getAcceleration := getAcceleration state;
     getSystemStatus := getSystemStatus state;
     getMeasurementStatus := getMeasurementStatus state;
     getOrientationIndex := getOrientationIndex state;
     getRateIndex := getRateIndex state;
     getPositionIndex := getPositionIndex state;
     getVelocityIndex := getVelocityIndex state;
     getAccelerationIndex := getAccelerationIndex state |}.

(** One evaluation of the process model: [prepareUpdate] followed by
    [getDerivative], and [prepareUpdate] followed by
    [getStateJacobian]. *)
Definition derivative_at (F : Flags) (m : Model) (inputs : Inputs)
  (x_dot : StateVector) (state : State) : StateVector :=
  getDerivative F (snd (prepareUpdate m state inputs)) x_dot state.

Definition jacobian_at (F : Flags) (m : Model) (inputs : Inputs)
  (A : SystemMatrix) (state : State) : SystemMatrix :=
  getStateJacobian F (snd (prepareUpdate m state inputs)) A state.

(** The measurement status as [getStatusFlags] reads it, replaced. *)
Definition with_measurement_status (state : State) (flags : SystemStatus)
  : State :=
  {| getOrientation := getOrientation state;
     getRate := getRate state;
     getVelocity := getVelocity state;
     getAcceleration := getAcceleration state;
     getSystemStatus := getSystemStatus state;
     getMeasurementStatus := flags;
     getOrientationIndex := getOrientationIndex state;
     getRateIndex := getRateIndex state;
     getPositionIndex := getPositionIndex state;
     getVelocityIndex := getVelocityIndex state;
     getAccelerationIndex := getAccelerationIndex state |}.

End GenericQuaternionSystemModel.

(** ** The measurement models ([measurement_model.cpp], [gps.cpp],
       [height.cpp]) *)

Module MeasurementModel.

(** A BFL [Matrix] with one row per measurement component and one column
    per state component; rows are numbered from 1. *)
Definition Matrix : Type := list (StateIndex -> R).

(** [C(i, j) = a]; a row outside the matrix is a failed assertion in the
    library, here the matrix stays as it is. *)
Definition mat_set (C : Matrix) (i : nat) (j : StateIndex) (a : R) : Matrix :=
  match vec_get C i with
  | Some row => vec_set C i (vset row j a)
  | None => C
  end.

(** A BFL [SymmetricMatrix], by rows; [noise(i,j) = a] writes the entry and
    its mirror image. *)
Definition SymmetricMatrix_ : Type := list (list R).

Definition entry_set (M : SymmetricMatrix_) (i j : nat) (a : R)
  : SymmetricMatrix_ :=
  match vec_get M i with
  | Some row => vec_set M i (vec_set row j a)
  | None => M
  end.

Definition smat_set (M : SymmetricMatrix_) (i j : nat) (a : R)
  : SymmetricMatrix_ :=
  entry_set (entry_set M i j a) j i a.

(** The members of [MeasurementModel] besides the scratch vector [y_]:
    the matrices [C_] and [D_] and the mean and covariance of the
    additive noise. *)
Record t : Type := {
  C_ : Matrix;
  D_ : list (list R);
  AdditiveNoiseMu : list R;
  AdditiveNoiseSigma : SymmetricMatrix_
}.

(** [MeasurementModel::MeasurementModel(dimension, conditional_arguments)] *)
Definition new (dimension conditional_arguments : nat) : t :=
  {| C_ := repeat (fun _ => 0.0) dimension;
     D_ := repeat (repeat 0.0 conditional_arguments) dimension;
     AdditiveNoiseMu := repeat 0.0 dimension;
     AdditiveNoiseSigma := repeat (repeat 0.0 dimension) dimension |}.

Definition AdditiveNoiseSigmaSet (b : t) (noise : SymmetricMatrix_) : t :=
  {| C_ := C_ b; D_ := D_ b; AdditiveNoiseMu := AdditiveNoiseMu b;
     AdditiveNoiseSigma := noise |}.

Definition with_C (b : t) (C : Matrix) : t :=
  {| C_ := C; D_ := D_ b; AdditiveNoiseMu := AdditiveNoiseMu b;
     AdditiveNoiseSigma := AdditiveNoiseSigma b |}.

(** The state components, in the order of the enumeration. *)
Definition state_indices : list StateIndex :=
  [QUATERNION_W; QUATERNION_X; QUATERNION_Y; QUATERNION_Z;
   RATE_X; RATE_Y; RATE_Z;
   POSITION_X; POSITION_Y; POSITION_Z;
   VELOCITY_X; VELOCITY_Y; VELOCITY_Z].

(** The product of a matrix and a state vector. *)
Definition row_times (row : StateIndex -> R) (x : StateVector) : R :=
  fold_right (fun j acc => row j * x j + acc) 0 state_indices.

Definition times (C : Matrix) (x : StateVector) : list R :=
  map (fun row => row_times row x) C.

(** The quadratic form [v' M v] of a square matrix given by rows. *)
Fixpoint dot (a b : list R) : R :=
  match a, b with
  | x :: a', y :: b' => x * y + dot a' b'
  | _, _ => 0
  end.

Definition quadratic_form (M : SymmetricMatrix_) (v : list R) : R :=
  dot v (map (fun row => dot row v) M).

Definition entry (M : SymmetricMatrix_) (i j : nat) : R :=
  match vec_get M i with
  | Some row => match vec_get row j with Some a => a | None => 0 end
  | None => 0
  end.

End MeasurementModel.

Module GPSModel.

(** [GPSModel]: the members [position_stddev_] and [velocity_stddev_],
    the scratch vector [y_] and the rest of the base class. *)
Record t : Type := {
  position_stddev_ : R;
  velocity_stddev_ : R;
  y_ : list R;
  base : MeasurementModel.t
}.

(** [static const unsigned int MeasurementDimension] of [GPSModel] *)
Definition MeasurementDimension : nat := 4.

(** [GPSModel::GPSModel()]; [fresh] is the content of the vector [y_] as
    allocated. *)
Definition new (fresh : list R) : t :=
  {| position_stddev_ := 10.0;
     velocity_stddev_ := 1.0;
     y_ := fresh;
     base := MeasurementModel.new MeasurementDimension 0 |}.

(** [bool GPSModel::init()] *)
Definition init (m : t) : bool * t :=
  let noise := repeat (repeat 0.0 MeasurementDimension) MeasurementDimension in
  let noise := MeasurementModel.smat_set noise 2 2 (position_stddev_ m ^ 2) in
  let noise :=
    MeasurementModel.smat_set noise 1 1 (MeasurementModel.entry noise 2 2) in
  let noise := MeasurementModel.smat_set noise 4 4 (velocity_stddev_ m ^ 2) in
  let noise :=
    MeasurementModel.smat_set noise 3 3 (MeasurementModel.entry noise 4 4) in
  (true,
   {| position_stddev_ := position_stddev_ m;
      velocity_stddev_ := velocity_stddev_ m;
      y_ := y_ m;
      base := MeasurementModel.AdditiveNoiseSigmaSet (base m) noise |}).

(** [ColumnVector GPSModel::ExpectedValueGet() const]; [x_] is the state
    passed by the filter. *)
Definition ExpectedValueGet (m : t) (x_ : StateVector) : t * list R :=
  let y := vec_set (y_ m) 1 (x_ POSITION_X) in
  let y := vec_set y 2 (x_ POSITION_Y) in
  let y := vec_set y 3 (x_ VELOCITY_X) in
  let y := vec_set y 4 (x_ VELOCITY_Y) in
  ({| position_stddev_ := position_stddev_ m;
      velocity_stddev_ := velocity_stddev_ m;
      y_ := y;
      base := base m |}, y).

(** [Matrix GPSModel::dfGet(unsigned int i) const]; [Matrix()] is the
    empty matrix. *)
Definition dfGet (m : t) (i : nat) : t * MeasurementModel.Matrix :=
  match i with
  | O =>
      let C := MeasurementModel.C_ (base m) in
      let C := MeasurementModel.mat_set C 1 POSITION_X 1.0 in
      let C := MeasurementModel.mat_set C 2 POSITION_Y 1.0 in
      let C := MeasurementModel.mat_set C 3 VELOCITY_X 1.0 in
      let C := MeasurementModel.mat_set C 4 VELOCITY_Y 1.0 in
      ({| position_stddev_ := position_stddev_ m;
          velocity_stddev_ := velocity_stddev_ m;
          y_ := y_ m;
          base := MeasurementModel.with_C (base m) C |}, C)
  | S _ => (m, [])
  end.

End GPSModel.

Module HeightModelBase.

(** The height model together with the members of its base class that
    [HeightMeasurement.HeightModel] leaves out. *)
Record t : Type := {
  model : HeightMeasurement.HeightModel;
  base : MeasurementModel.t
}.

(** [static const unsigned int MeasurementDimension] of [HeightModel] *)
Definition MeasurementDimension : nat := 1.

(** [HeightModel::HeightModel()] *)
Definition new (fresh : R) : t :=
  {| model := HeightMeasurement.HeightModel_new fresh;
     base := MeasurementModel.new MeasurementDimension 0 |}.

(** [bool HeightModel::init()] *)
Definition init (m : t) : bool * t :=
  let noise := repeat (repeat 0.0 MeasurementDimension) MeasurementDimension in
  let noise :=
    MeasurementModel.smat_set noise 1 1
      (HeightMeasurement.stddev_ (model m) ^ 2) in
  (true,
   {| model := model m;
      base := MeasurementModel.AdditiveNoiseSigmaSet (base m) noise |}).

(** [Matrix HeightModel::dfGet(unsigned int i) const] *)
Definition dfGet (m : t) (i : nat) : t * MeasurementModel.Matrix :=
  match i with
  | O =>
      let C :=
        MeasurementModel.mat_set (MeasurementModel.C_ (base m)) 1
          POSITION_Z 1.0 in
      ({| model := model m; base := MeasurementModel.with_C (base m) C |}, C)
  | S _ => (m, [])
  end.

End HeightModelBase.

(** ** The simple quadrotor controller
       ([quadrotor_simple_controller.cpp]) *)

Module PIDController.

(** [a > b] and [a < b] on [double] *)
Definition gtb (a b : R) : bool := if Rlt_dec b a then true else false.
Definition ltb (a b : R) : bool := if Rlt_dec a b then true else false.

(** [GazeboQuadrotorSimpleController::PIDController]: the gains and
    limits loaded from the configuration, and the state of the
    controller. *)
Record t : Type := {
  gain_p : R;
  gain_d : R;
  gain_i : R;
  time_constant : R;
  limit : R;
  input : R;
  dinput : R;
  output : R;
  p : R;
  i : R;
  d : R
}.

(** [void PIDController::reset()] *)
Definition reset (c : t) : t :=
  {| gain_p := gain_p c; gain_d := gain_d c; gain_i := gain_i c;
     time_constant := time_constant c; limit := limit c;
     input := 0; dinput := 0; output := 0; p := 0; i := 0; d := 0 |}.

(** The command after [// limit command]. *)
Definition limited (c : t) (new_input : R) : R :=
  if gtb (limit c) 0.0 && gtb (Rabs new_input) (limit c)
  then (if ltb new_input 0 then -1.0 else 1.0) * limit c
  else new_input.

(** [double PIDController::update(new_input, x, dx, dt)]: the returned
    output and the controller afterwards. *)
Definition update (c : t) (new_input x dx dt : R) : R * t :=
  (* limit command *)
  let new_input := limited c new_input in
  (* filter command *)
  let '(dinput', input') :=
    if gtb (dt + time_constant c) 0.0 then
      ((new_input - input c) / (dt + time_constant c),
       (dt * new_input + time_constant c * input c) / (dt + time_constant c))
    else (dinput c, input c) in
  (* update proportional, differential and integral errors *)
  let p' := input' - x in
  let d' := dinput' - dx in
  let i' := i c + dt * p' in
  (* update control output *)
  let output' := gain_p c * p' + gain_d c * d' + gain_i c * i' in
  (output',
   {| gain_p := gain_p c; gain_d := gain_d c; gain_i := gain_i c;
      time_constant := time_constant c; limit := limit c;
      input := input'; dinput := dinput'; output := output';
      p := p'; i := i'; d := d' |}).

(** One call of [update]: the command, the measured value and its rate,
    and the time step. *)
Record sample : Type := {
  command : R;
  measured : R;
  measured_rate : R;
  step : R
}.

(** The controller after a series of calls of [update]. *)
Definition run (c : t) (l : list sample) : t :=
  fold_left
    (fun c s => snd (update c (command s) (measured s) (measured_rate s)
                       (step s)))
    l c.

(** The last statements of
    [GazeboQuadrotorSimpleController::UpdateChild] on the thrust:
    [force.z = mass * (pid + load_factor * gravity)], then the two
    limits. *)
Definition thrust (max_force_ mass pid load_factor gravity : R) : R :=
  let force_z := mass * (pid + load_factor * gravity) in
  let force_z :=
    if gtb max_force_ 0.0 && gtb force_z max_force_ then max_force_
    else force_z in
  if ltb force_z 0.0 then 0.0 else force_z.

End PIDController.

(** ** Concrete inputs *)

Module Sample.

(** A spherical earth: the same scale at every latitude. *)
Definition Radius0 (_ : R) : R * R := (6378137, 6378137).

Definition ref0 : GlobalReference.t :=
  {| GlobalReference.position :=
       {| GlobalReference.latitude := 0; GlobalReference.longitude := 0;
          GlobalReference.altitude := 0 |};
     GlobalReference.heading := 0 |}.

Definition store0 : Store := fun _ => ref0.

(** The filter stands 100 m north of the anchor, level, at rest. *)
Definition state0 : StateVector :=
  fun i =>
    match i with
    | QUATERNION_W => 1
    | POSITION_X => 100
    | _ => 0
    end.

Definition estimator0 : PoseEstimation :=
  {| getState := state0; globalReference := 1%nat |}.

Definition fix0 : GPSMeasurement.GPSUpdate :=
  {| GPSMeasurement.latitude := 100 / 6378137;
     GPSMeasurement.longitude := 0;
     GPSMeasurement.velocity_north := 0;
     GPSMeasurement.velocity_east := 0 |}.

Definition fix1 : GPSMeasurement.GPSUpdate :=
  {| GPSMeasurement.latitude := 1;
     GPSMeasurement.longitude := 1;
     GPSMeasurement.velocity_north := 0;
     GPSMeasurement.velocity_east := 0 |}.

(** A GPS as its constructor and [onReset] leave it: no reference. *)
Definition gps_new : GPSMeasurement.GPS :=
  {| GPSMeasurement.reference_ := None;
     GPSMeasurement.y_ := [Num 0; Num 0; Num 0; Num 0];
     GPSMeasurement.last_ := fix0;
     GPSMeasurement.timedout := false |}.

(** A GPS that holds the reference of [estimator0]. *)
Definition gps_locked : GPSMeasurement.GPS :=
  {| GPSMeasurement.reference_ := Some 1%nat;
     GPSMeasurement.y_ := [Num 100; Num 0; Num 0; Num 0];
     GPSMeasurement.last_ := fix0;
     GPSMeasurement.timedout := false |}.

(** The same GPS after an outage longer than its timeout. *)
Definition gps_lost : GPSMeasurement.GPS :=
  {| GPSMeasurement.reference_ := Some 1%nat;
     GPSMeasurement.y_ := [Num 100; Num 0; Num 0; Num 0];
     GPSMeasurement.last_ := fix0;
     GPSMeasurement.timedout := true |}.

(** A vector as allocated for a model of dimension 3 (the rate and the
    magnetic model), with whatever the memory held. *)
Definition fresh3 : list R := [7; 8; 9].

Definition update3 : Update.Update_ :=
  {| Update.y_ := [1; 2; 3]; Update.R_ := []; Update.has_covariance_ := false |}.

(** The height sample 10 m, and a state at height 0. *)
Definition height10 : Update.Update_ := Update.Update_of_double [0] [] 10.

Definition level0 : StateVector :=
  fun i => match i with QUATERNION_W => 1 | _ => 0 end.

(** Later samples, the filter having climbed in between; before the
    second one the GPS has moved the anchor of the reference. *)
Definition later : list ((Store -> Store) * StateVector * Update.Update_) :=
  [ (fun s => s,
     fun i => match i with POSITION_Z => 2 | _ => 0 end,
     Update.Update_of_double [0] [] 12.5);
    (fun s => store_set s 1%nat (GlobalReference.setPosition (s 1%nat) 1 1),
     fun i => match i with POSITION_Z => 3 | _ => 0 end,
     Update.Update_of_double [0] [] 12) ].

(** The first sample of a second height measurement on the same
    estimator. *)
Definition height12 : Update.Update_ := Update.Update_of_double [0] [] 12.

(** Seven distinct bits for the status flags. *)
Definition flags0 : GenericQuaternionSystemModel.Flags :=
  {| GenericQuaternionSystemModel.STATE_POSITION_XY := 512%N;
     GenericQuaternionSystemModel.STATE_POSITION_Z := 1024%N;
     GenericQuaternionSystemModel.STATE_VELOCITY_XY := 128%N;
     GenericQuaternionSystemModel.STATE_VELOCITY_Z := 256%N;
     GenericQuaternionSystemModel.STATE_ROLLPITCH := 8%N;
     GenericQuaternionSystemModel.STATE_RATE_XY := 32%N;
     GenericQuaternionSystemModel.STATE_RATE_Z := 64%N |}.

Definition zero3 : Vec3.t := {| Vec3.x := 0; Vec3.y := 0; Vec3.z := 0 |}.

Definition identity : Quat.t :=
  {| Quat.w := 1; Quat.x := 0; Quat.y := 0; Quat.z := 0 |}.

(** A level state without rate and acceleration sub-vectors, driven by the
    IMU alone: only the rates are in the system status, and a height
    measurement is the only one in the measurement status. *)
Definition imu_only : GenericQuaternionSystemModel.State :=
  {| GenericQuaternionSystemModel.getOrientation := identity;
     GenericQuaternionSystemModel.getRate := zero3;
     GenericQuaternionSystemModel.getVelocity := zero3;
     GenericQuaternionSystemModel.getAcceleration := zero3;
     GenericQuaternionSystemModel.getSystemStatus := 96%N;
     GenericQuaternionSystemModel.getMeasurementStatus := 1024%N;
     GenericQuaternionSystemModel.getOrientationIndex := 0%Z;
     GenericQuaternionSystemModel.getRateIndex := (-1)%Z;
     GenericQuaternionSystemModel.getPositionIndex := 4%Z;
     GenericQuaternionSystemModel.getVelocityIndex := 7%Z;
     GenericQuaternionSystemModel.getAccelerationIndex := (-1)%Z |}.

(** A model whose accelerometer feels 1 m/s^2 forwards besides the
    reaction to gravity, and whose gyro noise is switched off. *)
Definition pushed : GenericQuaternionSystemModel.Model :=
  {| GenericQuaternionSystemModel.gravity_ := 9.8065;
     GenericQuaternionSystemModel.angular_acceleration_stddev_ := 2 * PI;
     GenericQuaternionSystemModel.rate_stddev_ := 0;
     GenericQuaternionSystemModel.acceleration_stddev_ := 0.01;
     GenericQuaternionSystemModel.velocity_stddev_ := 0;
     GenericQuaternionSystemModel.rate := zero3;
     GenericQuaternionSystemModel.acceleration :=
       {| Vec3.x := 1; Vec3.y := 0; Vec3.z := - 9.8065 |} |}.

(** The same state with a rate sub-vector, and a model with gyro noise. *)
Definition with_rate : GenericQuaternionSystemModel.State :=
  {| GenericQuaternionSystemModel.getOrientation := identity;
     GenericQuaternionSystemModel.getRate := zero3;
     GenericQuaternionSystemModel.getVelocity := zero3;
     GenericQuaternionSystemModel.getAcceleration := zero3;
     GenericQuaternionSystemModel.getSystemStatus := 96%N;
     GenericQuaternionSystemModel.getMeasurementStatus := 1024%N;
     GenericQuaternionSystemModel.getOrientationIndex := 0%Z;
     GenericQuaternionSystemModel.getRateIndex := 4%Z;
     GenericQuaternionSystemModel.getPositionIndex := 7%Z;
     GenericQuaternionSystemModel.getVelocityIndex := 10%Z;
     GenericQuaternionSystemModel.getAccelerationIndex := (-1)%Z |}.

Definition noisy : GenericQuaternionSystemModel.Model :=
  {| GenericQuaternionSystemModel.gravity_ := 9.8065;
     GenericQuaternionSystemModel.angular_acceleration_stddev_ := 2 * PI;
     GenericQuaternionSystemModel.rate_stddev_ := 2;
     GenericQuaternionSystemModel.acceleration_stddev_ := 0.01;
     GenericQuaternionSystemModel.velocity_stddev_ := 0;
     GenericQuaternionSystemModel.rate := zero3;
     GenericQuaternionSystemModel.acceleration :=
       {| Vec3.x := 0; Vec3.y := 0; Vec3.z := - 9.8065 |} |}.

Definition zero_vector : StateVector := fun _ => 0.

Definition zero_matrix : SymmetricMatrix := fun _ _ => 0.

Definition unit_matrix : SymmetricMatrix :=
  fun i j => if StateIndex_eq_dec i j then 1 else 0.

(** A state with all the sub-vectors but the acceleration, every flag
    of the system status active, yawed by about 106 degrees. *)
Definition aided : GenericQuaternionSystemModel.State :=
  {| GenericQuaternionSystemModel.getOrientation :=
       {| Quat.w := 0.6; Quat.x := 0; Quat.y := 0; Quat.z := 0.8 |};
     GenericQuaternionSystemModel.getRate := zero3;
     GenericQuaternionSystemModel.getVelocity :=
       {| Vec3.x := 1; Vec3.y := 0; Vec3.z := 0 |};
     GenericQuaternionSystemModel.getAcceleration := zero3;
     GenericQuaternionSystemModel.getSystemStatus := 2024%N;
     GenericQuaternionSystemModel.getMeasurementStatus := 512%N;
     GenericQuaternionSystemModel.getOrientationIndex := 0%Z;
     GenericQuaternionSystemModel.getRateIndex := 4%Z;
     GenericQuaternionSystemModel.getPositionIndex := 7%Z;
     GenericQuaternionSystemModel.getVelocityIndex := 10%Z;
     GenericQuaternionSystemModel.getAccelerationIndex := (-1)%Z |}.


(** The IMU at rest: no rate, the reaction to gravity, no bias. *)
Definition at_rest : GenericQuaternionSystemModel.Inputs :=
  {| GenericQuaternionSystemModel.imu_rate := zero3;
     GenericQuaternionSystemModel.imu_acceleration :=
       {| Vec3.x := 0; Vec3.y := 0; Vec3.z := - 9.8065 |};
     GenericQuaternionSystemModel.gyro_bias := zero3;
     GenericQuaternionSystemModel.accelerometer_bias := zero3 |}.

(** A velocity controller: gains, a filter of 0.1 s and the limit 2. *)
Definition pid0 : PIDController.t :=
  {| PIDController.gain_p := 5; PIDController.gain_d := 1;
     PIDController.gain_i := 0.5; PIDController.time_constant := 0.1;
     PIDController.limit := 2;
     PIDController.input := 0; PIDController.dinput := 0;
     PIDController.output := 0; PIDController.p := 0;
     PIDController.i := 0; PIDController.d := 0 |}.

Definition at_standstill : list PIDController.sample :=
  [ {| PIDController.command := 0; PIDController.measured := 0;
       PIDController.measured_rate := 0; PIDController.step := 0.01 |};
    {| PIDController.command := 0; PIDController.measured := 0;
       PIDController.measured_rate := 0; PIDController.step := 0 |} ].

End Sample.

(** * Properties *)

(** ** Vectors and pointers *)

Lemma double_div_0_0 : double_div 0 0 = NaN.
Proof.
  unfold double_div.
  destruct (Req_dec_T 0 0) as [_ | H]; [reflexivity | now elim H].
Qed.

Lemma pointer_eqb_eq (p q : pointer) : pointer_eqb p q = true <-> p = q.
Proof.
  destruct p as [a |], q as [b |]; simpl; split; intros H;
    try discriminate; try reflexivity.
  - apply Nat.eqb_eq in H. now subst.
  - injection H as ->. apply Nat.eqb_refl.
Qed.

Lemma store_set_same (s : Store) (a : nat) (r : GlobalReference.t) :
  store_set s a r a = r.
Proof. unfold store_set. now rewrite Nat.eqb_refl. Qed.

Lemma store_set_other (s : Store) (a b : nat) (r : GlobalReference.t) :
  b <> a -> store_set s a r b = s b.
Proof.
  intros H. unfold store_set.
  destruct (Nat.eqb_spec b a); [contradiction | reflexivity].
Qed.

Lemma vec_set_length {A : Type} (v : list A) (i : nat) (a : A) :
  length (vec_set v i a) = length v.
Proof.
  revert i. induction v as [| x r IH]; intros i; simpl; [reflexivity |].
  destruct i as [| [| j]]; simpl; try reflexivity.
  now rewrite IH.
Qed.

Lemma vec_get_set_same {A : Type} (v : list A) (i : nat) (a : A) :
  (1 <= i <= length v)%nat -> vec_get (vec_set v i a) i = Some a.
Proof.
  revert i. induction v as [| x r IH]; intros i [H1 H2]; simpl in *; [lia |].
  destruct i as [| [| j]]; [lia | reflexivity |].
  simpl. apply (IH (S j)). lia.
Qed.

Lemma vec_get_set_other {A : Type} (v : list A) (i j : nat) (a : A) :
  i <> j -> vec_get (vec_set v i a) j = vec_get v j.
Proof.
  revert i j. induction v as [| x r IH]; intros i j H; simpl; [reflexivity |].
  destruct i as [| [| i]]; try reflexivity.
  - destruct j as [| [| j]]; try reflexivity. congruence.
  - destruct j as [| [| j]]; try reflexivity.
    simpl. apply (IH (S i) (S j)). congruence.
Qed.

(** ** GPS *)

Module GPSFacts.
Import GPSMeasurement.

Section Facts.
Variable Radius : R -> R * R.

Lemma beforeUpdate_same_reference (g : GPS) (e : PoseEstimation) (st : Store)
  (u : GPSUpdate) :
  timedout g = false ->
  reference_ g = Some (globalReference e) ->
  beforeUpdate Radius g e st u
  = {| returned := true; gps_after := g; estimator_after := e;
       store_after := st |}.
Proof.
  intros Ht Hr. unfold beforeUpdate. rewrite Ht, Hr.
  replace (pointer_eqb _ _) with true
    by (symmetry; now apply pointer_eqb_eq).
  simpl. destruct g; simpl in *. now subst.
Qed.

Lemma beforeUpdate_new_reference (g : GPS) (e : PoseEstimation) (st : Store)
  (u : GPSUpdate) :
  timedout g = true \/ reference_ g <> Some (globalReference e) ->
  beforeUpdate Radius g e st u
  = let a := globalReference e in
    let ref1 := GlobalReference.setPosition (st a) (latitude u) (longitude u) in
    let p := GlobalReference.toWGS84 Radius ref1
               (- getState e POSITION_X) (- getState e POSITION_Y) in
    {| returned := true;
       gps_after := {| reference_ := Some a; y_ := y_ g; last_ := last_ g;
                       timedout := timedout g |};
       estimator_after := e;
       store_after :=
         store_set st a (GlobalReference.setPosition ref1 (fst p) (snd p)) |}.
Proof.
  intros H. unfold beforeUpdate. cbv zeta.
  destruct (pointer_eqb _ _) eqn:E.
  - apply pointer_eqb_eq in E. exfalso.
    destruct H as [H | H].
    + rewrite H in E. discriminate.
    + destruct (timedout g); [discriminate | contradiction].
  - simpl.
    destruct (GlobalReference.toWGS84 _ _ _ _) as [new_latitude new_longitude].
    reflexivity.
Qed.

Lemma beforeUpdate_cases (g : GPS) (e : PoseEstimation) :
  (timedout g = false /\ reference_ g = Some (globalReference e))
  \/ (timedout g = true \/ reference_ g <> Some (globalReference e)).
Proof.
  destruct (timedout g); [right; now left |].
  destruct (pointer_eqb (reference_ g) (Some (globalReference e))) eqn:E.
  - left. split; [reflexivity | now apply pointer_eqb_eq].
  - right. right. intros H. apply pointer_eqb_eq in H. congruence.
Qed.

(** The equirectangular conversion is a translation by the anchor: going
    back by [(-x, -y)] and forth by [(x, y)] at the same scale returns to
    the starting point. *)
Lemma toWGS84_back_and_forth (r : GlobalReference.t) (lat lon x y : R) :
  let ref1 := GlobalReference.setPosition r lat lon in
  let p := GlobalReference.toWGS84 Radius ref1 (- x) (- y) in
  let ref2 := GlobalReference.setPosition ref1 (fst p) (snd p) in
  Radius (fst p) = Radius lat ->
  GlobalReference.toWGS84 Radius ref2 x y = (lat, lon).
Proof.
  simpl. unfold GlobalReference.toWGS84. simpl.
  destruct (Radius lat) as [north east] eqn:E. simpl.
  intros ->. f_equal; unfold Rdiv; ring.
Qed.

(** C2, as the code has it: [GPS::beforeUpdate] returns true for every
    correction, also while the model holds no reference position; it then
    adopts the global reference of the estimator and anchors it from the
    fix: the reference of the estimator is set to the position of the
    fix and then to the point that [toWGS84] gives around the fix for the
    negated local position of the state, and no other reference is
    written.  It never writes the state of the estimator. *)
Theorem beforeUpdate_returns_true (g : GPS) (e : PoseEstimation) (st : Store)
  (u : GPSUpdate) :
  let o := beforeUpdate Radius g e st u in
  let a := globalReference e in
  let at_fix :=
    GlobalReference.setPosition (st a) (latitude u) (longitude u) in
  let p :=
    GlobalReference.toWGS84 Radius at_fix
      (- getState e POSITION_X) (- getState e POSITION_Y) in
  returned o = true
  /\ reference_ (gps_after o) = Some (globalReference e)
  /\ estimator_after o = e
  /\ (reference_ g = None \/ timedout g = true ->
      store_after o
      = store_set st a (GlobalReference.setPosition at_fix (fst p) (snd p))
      /\ store_after o a = GlobalReference.setPosition at_fix (fst p) (snd p)
      /\ (forall b : nat, b <> a -> store_after o b = st b)).
Proof.
  cbv zeta.
  destruct (beforeUpdate_cases g e) as [[Ht Hr] | H].
  - rewrite (beforeUpdate_same_reference g e st u Ht Hr). simpl.
    split; [reflexivity |]. split; [exact Hr |]. split; [reflexivity |].
    intros [Hn | Hn]; congruence.
  - rewrite (beforeUpdate_new_reference g e st u H). simpl.
    split; [reflexivity |]. split; [reflexivity |]. split; [reflexivity |].
    intros _. split; [reflexivity |]. split.
    + apply store_set_same.
    + intros b Hb. now apply store_set_other.
Qed.

(** C7: while the model holds no reference position, [GPS::getVector]
    returns a vector whose four components (local x, local y, velocity x,
    velocity y) are all NaN, for every update; the update is not
    recorded as the last one. *)
Theorem getVector_without_reference (g : GPS) (st : Store) (u : GPSUpdate) :
  reference_ g = None ->
  length (y_ g) = 4%nat ->
  snd (getVector Radius g st u) = [NaN; NaN; NaN; NaN]
  /\ Forall (fun d => is_nan d = true) (snd (getVector Radius g st u))
  /\ y_ (fst (getVector Radius g st u)) = [NaN; NaN; NaN; NaN]
  /\ last_ (fst (getVector Radius g st u)) = last_ g
  /\ reference_ (fst (getVector Radius g st u)) = None.
Proof.
  intros Hr Hl. unfold getVector. rewrite Hr, double_div_0_0. simpl.
  destruct (y_ g) as [| a [| b [| c [| d [| x r]]]]]; try discriminate.
  simpl. repeat split; auto.
Qed.

(** C10: while the GPS has not timed out and its stored reference pointer
    equals the global reference of the estimator, [GPS::beforeUpdate]
    leaves the anchor (the whole store, the estimator and the GPS object)
    unchanged; a call that changes the global reference at some address
    is a call on the first fix ([reference_] differs from the reference
    of the estimator) or after a timeout, and the address is that of the
    reference of the estimator. *)
Theorem beforeUpdate_anchor_frame (g : GPS) (e : PoseEstimation) (st : Store)
  (u : GPSUpdate) :
  let o := beforeUpdate Radius g e st u in
  (timedout g = false ->
   reference_ g = Some (globalReference e) ->
   store_after o = st /\ gps_after o = g /\ estimator_after o = e
   /\ returned o = true)
  /\ (forall a : nat,
        store_after o a <> st a ->
        a = globalReference e
        /\ (timedout g = true \/ reference_ g <> Some (globalReference e))).
Proof.
  simpl. split.
  - intros Ht Hr. rewrite (beforeUpdate_same_reference g e st u Ht Hr).
    simpl. auto.
  - intros a Ha.
    destruct (beforeUpdate_cases g e) as [[Ht Hr] | H].
    + rewrite (beforeUpdate_same_reference g e st u Ht Hr) in Ha.
      simpl in Ha. now elim Ha.
    + split; [| exact H].
      rewrite (beforeUpdate_new_reference g e st u H) in Ha. simpl in Ha.
      destruct (Nat.eq_dec a (globalReference e)) as [E | E]; [exact E |].
      rewrite store_set_other in Ha by exact E. now elim Ha.
Qed.

(** C1, as the code has it: when [GPS::beforeUpdate] re-anchors the global
    reference on a fix at [(lat1, lon1)] (first fix, or reacquisition after
    a timeout), the state of the estimator is not written, so its local
    position [(x0, y0)] is not reset; the new anchor is the point that
    [toWGS84] gives for [(-x0, -y0)] around the fix; and, the scale of the
    tangent plane being the same at the new anchor as at the fix,
    [toWGS84] takes the local [(x0, y0)] to the new fix [(lat1, lon1)]. *)
Theorem beforeUpdate_reanchors_on_fix (g : GPS) (e : PoseEstimation)
  (st : Store) (u : GPSUpdate) :
  timedout g = true \/ reference_ g <> Some (globalReference e) ->
  let o := beforeUpdate Radius g e st u in
  let x0 := getState e POSITION_X in
  let y0 := getState e POSITION_Y in
  let at_fix :=
    GlobalReference.setPosition (st (globalReference e))
      (latitude u) (longitude u) in
  let anchor := GlobalReference.position (store_after o (globalReference e)) in
  estimator_after o = e
  /\ (GlobalReference.latitude anchor, GlobalReference.longitude anchor)
     = GlobalReference.toWGS84 Radius at_fix (- x0) (- y0)
  /\ (Radius (GlobalReference.latitude anchor) = Radius (latitude u) ->
      GlobalReference.toWGS84 Radius (store_after o (globalReference e)) x0 y0
      = (latitude u, longitude u)).
Proof.
  intros H. rewrite (beforeUpdate_new_reference g e st u H). simpl.
  rewrite store_set_same. simpl.
  split; [reflexivity |]. split.
  - now destruct (GlobalReference.toWGS84 _ _ _ _).
  - intros HR.
    apply (toWGS84_back_and_forth (st (globalReference e))). exact HR.
Qed.

End Facts.

(** C2 as stated fails: a GPS fresh from its constructor holds no
    reference position, and [beforeUpdate] returns true on its first
    fix. *)
Lemma beforeUpdate_returns_false_counterexample :
  reference_ Sample.gps_new = None
  /\ returned (beforeUpdate Sample.Radius0 Sample.gps_new Sample.estimator0
                 Sample.store0 Sample.fix1) <> false.
Proof.
  split; [reflexivity |].
  rewrite beforeUpdate_new_reference by (right; discriminate).
  simpl. discriminate.
Qed.

(** C1 as stated fails.  Before the outage the estimator stands at the
    local position (100, 0), which the anchor (0, 0) takes to the latitude
    100/6378137 and the longitude 0.  After the timeout a fix arrives at
    (1, 1): once [beforeUpdate] has re-anchored the reference, the same
    local position is taken to the fix, not to the old coordinates. *)
Lemma reanchor_old_coordinates_counterexample :
  let o := beforeUpdate Sample.Radius0 Sample.gps_lost Sample.estimator0
             Sample.store0 Sample.fix1 in
  let a := globalReference Sample.estimator0 in
  let x0 := getState Sample.estimator0 POSITION_X in
  let y0 := getState Sample.estimator0 POSITION_Y in
  timedout Sample.gps_lost = true
  /\ GlobalReference.toWGS84 Sample.Radius0 (Sample.store0 a) x0 y0
     = (100 / 6378137, 0)
  /\ (latitude Sample.fix1, longitude Sample.fix1) <> (100 / 6378137, 0)
  /\ GlobalReference.toWGS84 Sample.Radius0 (store_after o a) x0 y0
     <> (100 / 6378137, 0).
Proof.
  simpl. split; [reflexivity |]. split; [| split].
  - unfold GlobalReference.toWGS84. simpl. f_equal; lra.
  - intros H. injection H as H1 H2. lra.
  - rewrite store_set_same. unfold GlobalReference.toWGS84. simpl.
    intros H. injection H as H1 H2. lra.
Qed.

Lemma beforeUpdate_reanchors_on_fix_witness :
  let o := beforeUpdate Sample.Radius0 Sample.gps_lost Sample.estimator0
             Sample.store0 Sample.fix1 in
  GlobalReference.toWGS84 Sample.Radius0
    (store_after o (globalReference Sample.estimator0))
    (getState Sample.estimator0 POSITION_X)
    (getState Sample.estimator0 POSITION_Y)
  = (1, 1).
Proof.
  apply (beforeUpdate_reanchors_on_fix Sample.Radius0 Sample.gps_lost
           Sample.estimator0 Sample.store0 Sample.fix1).
  - left. reflexivity.
  - reflexivity.
Defined.

Lemma getVector_without_reference_witness :
  snd (getVector Sample.Radius0 Sample.gps_new Sample.store0 Sample.fix1)
  = [NaN; NaN; NaN; NaN].
Proof.
  apply (getVector_without_reference Sample.Radius0 Sample.gps_new
           Sample.store0 Sample.fix1); reflexivity.
Defined.

Lemma beforeUpdate_anchor_frame_witness :
  store_after (beforeUpdate Sample.Radius0 Sample.gps_locked
                 Sample.estimator0 Sample.store0 Sample.fix1)
  = Sample.store0.
Proof.
  apply (beforeUpdate_anchor_frame Sample.Radius0 Sample.gps_locked
           Sample.estimator0 Sample.store0 Sample.fix1); reflexivity.
Defined.

(** On the first fix (1, 1) of a GPS fresh from its constructor, with the
    state at the local position (100, 0), [beforeUpdate] returns true and
    leaves the anchor at the latitude 1 - 100/6378137 and the
    longitude 1. *)
Lemma beforeUpdate_returns_true_witness :
  let o := beforeUpdate Sample.Radius0 Sample.gps_new Sample.estimator0
             Sample.store0 Sample.fix1 in
  let anchor :=
    GlobalReference.position
      (store_after o (globalReference Sample.estimator0)) in
  returned o = true
  /\ GlobalReference.latitude anchor = 1 - 100 / 6378137
  /\ GlobalReference.longitude anchor = 1.
Proof.
  destruct (beforeUpdate_returns_true Sample.Radius0 Sample.gps_new
              Sample.estimator0 Sample.store0 Sample.fix1)
    as (H1 & _ & _ & H2).
  destruct (H2 (or_introl eq_refl)) as (_ & H3 & _).
  cbv zeta. split; [exact H1 |]. rewrite H3.
  unfold GlobalReference.toWGS84. simpl. split; lra.
Defined.

End GPSFacts.

(** ** The measurement envelope *)

Module UpdateFacts.
Import Update.

Lemma step_covariance_as (u : Update_) (c : call) (last : option Covariance) :
  covariance_as u last ->
  covariance_as (step u c) (last_covariance [c] last).
Proof.
  intros H. destruct c as [y | y | C]; simpl.
  - exact H.
  - exact H.
  - split; reflexivity.
Qed.

Lemma last_covariance_cons (c : call) (cs : list call)
  (last : option Covariance) :
  last_covariance (c :: cs) last = last_covariance cs (last_covariance [c] last).
Proof. destruct c; reflexivity. Qed.

Lemma run_covariance_as (cs : list call) :
  forall (u : Update_) (last : option Covariance),
    covariance_as u last ->
    covariance_as (run u cs) (last_covariance cs last).
Proof.
  induction cs as [| c cs IH]; intros u last H.
  - exact H.
  - rewrite last_covariance_cons. unfold run. simpl.
    apply IH. now apply step_covariance_as.
Qed.

(** C9: for a measurement vector of more than one component, the
    constructor from a scalar and [setValue(double)] write the first
    component and leave every other component as it was (for the
    constructor: as the vector was allocated), and they touch neither the
    covariance nor its flag; [hasCovariance()] is false after each
    constructor and stays false until [setCovariance] is called; after
    [setCovariance(C)], [hasCovariance()] is true and [getCovariance()]
    returns [C], whatever values are set afterwards. *)
Theorem scalar_value_and_covariance (fresh : list R) (R0 : Covariance)
  (u : Update_) (y : R) (v : list R) (cs : list call) :
  (1 < length fresh)%nat ->
  (1 < length (getVector u))%nat ->
  (vec_get (getVector (Update_of_double fresh R0 y)) 1 = Some y
   /\ (forall i : nat, i <> 1%nat ->
         vec_get (getVector (Update_of_double fresh R0 y)) i = vec_get fresh i)
   /\ length (getVector (Update_of_double fresh R0 y)) = length fresh)
  /\ (vec_get (getVector (setValue_double u y)) 1 = Some y
      /\ (forall i : nat, i <> 1%nat ->
            vec_get (getVector (setValue_double u y)) i
            = vec_get (getVector u) i)
      /\ length (getVector (setValue_double u y)) = length (getVector u)
      /\ getCovariance (setValue_double u y) = getCovariance u
      /\ hasCovariance (setValue_double u y) = hasCovariance u)
  /\ (covariance_as (run (Update_new fresh R0) cs) (last_covariance cs None)
      /\ covariance_as (run (Update_of_vector fresh R0 v) cs)
           (last_covariance cs None)
      /\ covariance_as (run (Update_of_double fresh R0 y) cs)
           (last_covariance cs None))
  /\ (forall C : Covariance,
        covariance_as (run (setCovariance u C) cs)
          (last_covariance cs (Some C))).
Proof.
  intros Hf Hu. unfold getVector in *. repeat split.
  - apply vec_get_set_same. simpl. lia.
  - intros i Hi. apply vec_get_set_other. congruence.
  - apply vec_set_length.
  - apply vec_get_set_same. lia.
  - intros i Hi. apply vec_get_set_other. congruence.
  - apply vec_set_length.
  - apply run_covariance_as. reflexivity.
  - apply run_covariance_as. reflexivity.
  - apply run_covariance_as. reflexivity.
  - intros C. apply run_covariance_as. split; reflexivity.
Qed.

Lemma scalar_value_and_covariance_witness :
  getVector (Update_of_double Sample.fresh3 [] 5) = [5; 8; 9]
  /\ vec_get (getVector (setValue_double Sample.update3 5)) 2 = Some 2
  /\ hasCovariance (run (Update_of_double Sample.fresh3 [] 5)
                      [SetValueDouble 4; SetValue [1; 1; 1]]) = false
  /\ getCovariance (run (Update_of_double Sample.fresh3 [] 5)
                      [SetCovariance [[1]]; SetValueDouble 4]) = [[1]].
Proof.
  assert (L : (1 < 3)%nat) by lia.
  destruct (scalar_value_and_covariance Sample.fresh3 [] Sample.update3 5
              [1; 1; 1] [SetValueDouble 4; SetValue [1; 1; 1]] L L)
    as (_ & Hs & Hr & _).
  destruct (scalar_value_and_covariance Sample.fresh3 [] Sample.update3 5
              [1; 1; 1] [SetCovariance [[1]]; SetValueDouble 4] L L)
    as (_ & _ & Hr' & _).
  split; [reflexivity |]. split; [| split].
  - rewrite (proj1 (proj2 Hs)) by discriminate. reflexivity.
  - exact (proj2 (proj2 Hr)).
  - exact (proj2 (proj2 (proj2 Hr'))).
Defined.

End UpdateFacts.

(** ** Height *)

Module HeightFacts.
Import HeightMeasurement.

Lemma beforeUpdate_initialized (h : Height) (e : PoseEstimation) (st : Store)
  (u : Update.Update_) :
  elevation_initialized_ (common h) = true ->
  beforeUpdate h e st u
  = {| returned := true;
       height_after :=
         {| model :=
              setElevation (model h)
                (GlobalReference.altitude
                   (GlobalReference.position (st (globalReference e))));
            common := common h |};
       estimator_after := e;
       store_after := st |}.
Proof.
  intros H. unfold beforeUpdate, resetElevation. rewrite H. reflexivity.
Qed.

Lemma beforeUpdate_not_initialized (h : Height) (e : PoseEstimation)
  (st : Store) (u : Update.Update_) :
  elevation_initialized_ (common h) = false ->
  beforeUpdate h e st u
  = let elevation :=
      vec_read (Update.getVector u) 1 - getState e POSITION_Z in
    {| returned := true;
       height_after :=
         {| model := setElevation (model h) elevation;
            common := {| auto_elevation_ := auto_elevation_ (common h);
                         elevation_initialized_ := true |} |};
       estimator_after := e;
       store_after :=
         store_set st (globalReference e)
           (GlobalReference.setAltitude (st (globalReference e)) elevation) |}.
Proof.
  intros H. unfold beforeUpdate, resetElevation. rewrite H. simpl.
  rewrite store_set_same. reflexivity.
Qed.

(** Once the elevation is initialised, the height measurement writes the
    store no more: what the store holds after a run is what the other
    clients wrote. *)
Lemma samples_store (addr : nat)
  (l : list ((Store -> Store) * StateVector * Update.Update_)) :
  forall (h : Height) (st : Store),
    elevation_initialized_ (common h) = true ->
    snd (samples h addr st l) = written_by_others st l
    /\ common (fst (samples h addr st l)) = common h.
Proof.
  induction l as [| [[others x] u] r IH]; intros h st Hi; simpl.
  - auto.
  - rewrite (beforeUpdate_initialized h _ (others st) u Hi). simpl.
    apply (IH {| model :=
                   setElevation (model h)
                     (GlobalReference.altitude
                        (GlobalReference.position (others st addr)));
                 common := common h |} (others st)). exact Hi.
Qed.

(** As long as the others keep the altitude, the elevation stays. *)
Lemma samples_elevation (addr : nat)
  (l : list ((Store -> Store) * StateVector * Update.Update_)) :
  forall (h : Height) (st : Store),
    elevation_initialized_ (common h) = true ->
    getElevation (model h)
    = GlobalReference.altitude (GlobalReference.position (st addr)) ->
    Forall (fun item => keeps_altitude addr (fst (fst item))) l ->
    getElevation (model (fst (samples h addr st l))) = getElevation (model h)
    /\ GlobalReference.altitude
         (GlobalReference.position (snd (samples h addr st l) addr))
       = getElevation (model h).
Proof.
  induction l as [| [[others x] u] r IH]; intros h st Hi He Hk; simpl.
  - auto.
  - inversion Hk as [| item r' Hk1 Hk2]; subst. simpl in Hk1.
    rewrite (beforeUpdate_initialized h _ (others st) u Hi). simpl.
    destruct (IH {| model :=
                      setElevation (model h)
                        (GlobalReference.altitude
                           (GlobalReference.position (others st addr)));
                    common := common h |} (others st) Hi eq_refl Hk2)
      as [H1 H2].
    simpl in H1, H2. rewrite H1, H2, Hk1, He. auto.
Qed.

Lemma samples_scratch (addr : nat)
  (l : list ((Store -> Store) * StateVector * Update.Update_)) :
  forall (h : Height) (st : Store),
    y_ (model (fst (samples h addr st l))) = y_ (model h).
Proof.
  induction l as [| [[others x] u] r IH]; intros h st; simpl; [reflexivity |].
  rewrite IH. unfold beforeUpdate.
  destruct (resetElevation _ _ _ _) as [[elevation c'] st']. reflexivity.
Qed.

(** C3, as the code has it: on the first sample after construction or
    [onReset] (the sample is not checked, and neither is [auto_elevation_]),
    the height measurement stores the elevation [raw - z] in the model and
    as the altitude of the global reference of the estimator, [raw] being
    the sample and [z] the height of the state; the measurement predicted
    for a state at height [z'] is then [z' + (raw - z)].  Until [onReset]
    the height measurement writes the reference no more, and every later
    sample sets the elevation of the model to the altitude the reference
    then holds: the elevation stays [raw - z] as long as no other client
    of the reference has written its altitude, and follows the altitude
    otherwise.  After [onReset] the next sample solves the elevation
    again. *)
Theorem first_sample_sets_elevation (fresh : R) (h0 h : Height) (addr : nat)
  (st : Store) (x : StateVector) (u : Update.Update_)
  (rest : list ((Store -> Store) * StateVector * Update.Update_))
  (others : Store -> Store) (x2 : StateVector) (u2 : Update.Update_) :
  h = Height_new fresh \/ h = onReset h0 ->
  length (y_ (model h)) = 1%nat ->
  let raw := vec_read (Update.getVector u) 1 in
  let z := x POSITION_Z in
  let o := beforeUpdate h {| getState := x; globalReference := addr |} st u in
  let later := samples (height_after o) addr (store_after o) rest in
  let next :=
    beforeUpdate (fst later) {| getState := x2; globalReference := addr |}
      (others (snd later)) u2 in
  let again :=
    beforeUpdate (onReset (fst later))
      {| getState := x2; globalReference := addr |} (others (snd later)) u2 in
  returned o = true
  /\ getElevation (model (height_after o)) = raw - z
  /\ GlobalReference.altitude
       (GlobalReference.position (store_after o addr)) = raw - z
  /\ (forall x' : StateVector,
        snd (ExpectedValueGet (model (height_after o)) x')
        = [x' POSITION_Z + (raw - z)])
  /\ snd later = written_by_others (store_after o) rest
  /\ store_after next = others (snd later)
  /\ getElevation (model (height_after next))
     = GlobalReference.altitude
         (GlobalReference.position (others (snd later) addr))
  /\ (Forall (fun item => keeps_altitude addr (fst (fst item))) rest ->
      getElevation (model (fst later)) = raw - z
      /\ GlobalReference.altitude (GlobalReference.position (snd later addr))
         = raw - z
      /\ (forall x' : StateVector,
            snd (ExpectedValueGet (model (fst later)) x')
            = [x' POSITION_Z + (raw - z)])
      /\ (keeps_altitude addr others ->
          getElevation (model (height_after next)) = raw - z))
  /\ getElevation (model (height_after again))
     = vec_read (Update.getVector u2) 1 - x2 POSITION_Z.
Proof.
  intros Hh Hy raw z.
  assert (Hi : elevation_initialized_ (common h) = false)
    by (destruct Hh; subst h; reflexivity).
  rewrite (beforeUpdate_not_initialized h _ st u Hi). cbv zeta.
  cbn [height_after store_after returned getState globalReference].
  fold raw. fold z.
  set (h1 := {| model := setElevation (model h) (raw - z);
                common := {| auto_elevation_ := auto_elevation_ (common h);
                             elevation_initialized_ := true |} |}).
  set (st1 := store_set st addr
                (GlobalReference.setAltitude (st addr) (raw - z))).
  assert (Ha : GlobalReference.altitude (GlobalReference.position (st1 addr))
               = raw - z)
    by (unfold st1; rewrite store_set_same; reflexivity).
  destruct (samples_store addr rest h1 st1 eq_refl) as [S1 S2].
  assert (Hinit : elevation_initialized_
                    (common (fst (samples h1 addr st1 rest))) = true)
    by (rewrite S2; reflexivity).
  assert (Hexp : forall (m : HeightModel) (x' : StateVector),
             length (y_ m) = 1%nat -> getElevation m = raw - z ->
             snd (ExpectedValueGet m x') = [x' POSITION_Z + (raw - z)]).
  { intros m x' Hm He. unfold ExpectedValueGet. simpl.
    destruct (y_ m) as [| a [| b r]]; try discriminate.
    simpl. rewrite He. reflexivity. }
  assert (Hy' : length (y_ (model (fst (samples h1 addr st1 rest)))) = 1%nat)
    by (rewrite samples_scratch; exact Hy).
  rewrite (beforeUpdate_initialized _ _ (others (snd (samples h1 addr st1 rest)))
             u2 Hinit).
  cbn [height_after store_after model getElevation setElevation elevation_
       globalReference].
  split; [reflexivity |]. split; [reflexivity |]. split; [exact Ha |].
  split; [intros x'; apply Hexp; auto |].
  split; [exact S1 |]. split; [reflexivity |]. split; [reflexivity |].
  split.
  - intros Hk.
    destruct (samples_elevation addr rest h1 st1 eq_refl (eq_sym Ha) Hk)
      as [E1 E2].
    change (getElevation (model h1)) with (raw - z) in E1, E2.
    split; [exact E1 |]. split; [exact E2 |].
    split; [intros x'; apply Hexp; auto |].
    intros Ho. rewrite Ho. exact E2.
  - rewrite beforeUpdate_not_initialized by reflexivity. reflexivity.
Qed.

(** C3 as stated fails: the elevation changes with no [onReset].  A
    height measurement solves the elevation 10 from the sample 10 at
    height 0; then a second height measurement on the same estimator takes
    its first sample, 12; the next sample of the first measurement leaves
    it with the elevation 12. *)
Lemma elevation_kept_until_reset_counterexample :
  let e := {| getState := Sample.level0; globalReference := 1%nat |} in
  let o1 := beforeUpdate (Height_new 0) e Sample.store0 Sample.height10 in
  let o2 := beforeUpdate (Height_new 0) e (store_after o1) Sample.height12 in
  let o3 := beforeUpdate (height_after o1) e (store_after o2)
              Sample.height10 in
  getElevation (model (height_after o1)) = 10 - 0
  /\ elevation_initialized_ (common (height_after o1)) = true
  /\ getElevation (model (height_after o3))
     <> getElevation (model (height_after o1)).
Proof.
  cbv zeta.
  rewrite (beforeUpdate_not_initialized (Height_new 0) _ Sample.store0
             Sample.height10 eq_refl).
  cbv zeta. cbn [height_after store_after getState globalReference].
  rewrite (beforeUpdate_not_initialized (Height_new 0) _ _
             Sample.height12 eq_refl).
  cbv zeta. cbn [height_after store_after getState globalReference].
  rewrite beforeUpdate_initialized by reflexivity.
  cbn [height_after model getElevation setElevation elevation_ common
       elevation_initialized_ globalReference].
  rewrite !store_set_same.
  split; [reflexivity |]. split; [reflexivity |].
  cbn. lra.
Qed.

(** The example of the claim: the sample 10 on a state at height 0 gives
    the elevation 10, and the measurement predicted at height 0 is 10
    again, also after later samples between which the GPS has moved the
    anchor. *)
Lemma first_sample_sets_elevation_witness :
  let o := beforeUpdate (Height_new 0)
             {| getState := Sample.level0; globalReference := 1%nat |}
             Sample.store0 Sample.height10 in
  let later := samples (height_after o) 1%nat (store_after o) Sample.later in
  getElevation (model (height_after o)) = 10 - 0
  /\ snd (ExpectedValueGet (model (height_after o)) Sample.level0) = [10]
  /\ getElevation (model (fst later)) = 10 - 0
  /\ snd (ExpectedValueGet (model (fst later)) Sample.level0) = [10].
Proof.
  destruct (first_sample_sets_elevation 0 (Height_new 0) (Height_new 0)
              1%nat Sample.store0 Sample.level0 Sample.height10
              Sample.later (fun s => s) Sample.level0 Sample.height10
              (or_introl eq_refl) eq_refl)
    as (_ & H1 & _ & H2 & _ & _ & _ & H3 & _).
  assert (K : Forall (fun item => keeps_altitude 1 (fst (fst item)))
                Sample.later).
  { unfold Sample.later.
    apply Forall_cons; [intros s; reflexivity |].
    apply Forall_cons; [| apply Forall_nil].
    intros s. cbn [fst]. rewrite store_set_same. reflexivity. }
  destruct (H3 K) as (H4 & _ & H5 & _).
  assert (E : Sample.level0 POSITION_Z
              + (vec_read (Update.getVector Sample.height10) 1
                 - Sample.level0 POSITION_Z) = 10)
    by (cbn; lra).
  split; [exact H1 |].
  split; [rewrite (H2 Sample.level0), E; reflexivity |].
  split; [exact H4 |]. rewrite (H5 Sample.level0), E. reflexivity.
Defined.

End HeightFacts.

(** ** The process model *)

Module SystemFacts.
Import GenericQuaternionSystemModel.

Lemma active_lor (f m k : SystemStatus) :
  active (N.lor f m) k = active f k || active m k.
Proof.
  unfold active. rewrite N.land_lor_distr_l.
  destruct (N.eqb_spec (N.land f k) 0) as [E1 | E1];
    destruct (N.eqb_spec (N.land m k) 0) as [E2 | E2];
    destruct (N.eqb_spec (N.lor (N.land f k) (N.land m k)) 0) as [E | E];
    try reflexivity; exfalso.
  - apply E. apply N.lor_eq_0_iff. auto.
  - apply N.lor_eq_0_iff in E. tauto.
  - apply N.lor_eq_0_iff in E. tauto.
  - apply N.lor_eq_0_iff in E. tauto.
Qed.

Lemma active_self (m : SystemStatus) : m <> 0%N -> active m m = true.
Proof.
  intros H. unfold active. rewrite N.land_diag.
  destruct (N.eqb_spec m 0); [contradiction | reflexivity].
Qed.

Lemma active_disjoint (a b : SystemStatus) :
  N.land a b = 0%N -> active a b = false /\ active b a = false.
Proof.
  intros H. unfold active. rewrite (N.land_comm b a), H. auto.
Qed.

Ltac split_independent H :=
  destruct H as [Hnz Hdj];
  repeat match goal with
    | h : Forall _ (_ :: _) |- _ => inversion h; clear h; subst
    | h : Forall _ [] |- _ => clear h
    | h : ForallOrdPairs _ (_ :: _) |- _ => inversion h; clear h; subst
    | h : ForallOrdPairs _ [] |- _ => clear h
    end;
  repeat match goal with
    | h : N.land _ _ = 0%N |- _ => apply active_disjoint in h; destruct h
    | h : _ <> 0%N |- _ => apply active_self in h
    end.

(** C6: for every measurement status, the system status returned by
    [getStatusFlags] has the XY velocity active whenever it has the XY
    position active, the Z velocity whenever the Z position, roll and
    pitch whenever the XY velocity, and the XY rate whenever roll and
    pitch (the flags being independent bits). *)
Theorem getStatusFlags_chain (F : Flags) (USE_RATE_SYSTEM_MODEL : bool)
  (state : State) :
  independent F ->
  let flags := getStatusFlags F USE_RATE_SYSTEM_MODEL state in
  (active flags (STATE_POSITION_XY F) = true ->
   active flags (STATE_VELOCITY_XY F) = true)
  /\ (active flags (STATE_POSITION_Z F) = true ->
      active flags (STATE_VELOCITY_Z F) = true)
  /\ (active flags (STATE_VELOCITY_XY F) = true ->
      active flags (STATE_ROLLPITCH F) = true)
  /\ (active flags (STATE_ROLLPITCH F) = true ->
      active flags (STATE_RATE_XY F) = true).
Proof.
  intros H. unfold independent in H. cbv zeta in H. split_independent H.
  unfold getStatusFlags. cbv zeta.
  set (m := getMeasurementStatus state).
  destruct (active m (STATE_POSITION_XY F)) eqn:E1;
    repeat (rewrite ?active_lor;
            repeat match goal with h : active _ _ = _ |- _ => rewrite h end;
            cbn [orb]);
  destruct (active m (STATE_POSITION_Z F)) eqn:E2;
    repeat (rewrite ?active_lor;
            repeat match goal with h : active _ _ = _ |- _ => rewrite h end;
            cbn [orb]);
  destruct (active m (STATE_VELOCITY_XY F)) eqn:E3;
    repeat (rewrite ?active_lor;
            repeat match goal with h : active _ _ = _ |- _ => rewrite h end;
            cbn [orb]);
  destruct (active m (STATE_ROLLPITCH F)) eqn:E4;
    repeat (rewrite ?active_lor;
            repeat match goal with h : active _ _ = _ |- _ => rewrite h end;
            cbn [orb]);
  destruct USE_RATE_SYSTEM_MODEL;
    repeat (rewrite ?active_lor;
            repeat match goal with h : active _ _ = _ |- _ => rewrite h end;
            cbn [orb]);
  rewrite ?orb_true_r, ?orb_false_r;
  repeat split; intros; try reflexivity; try assumption; try discriminate.
Qed.

Lemma independent_flags0 : independent Sample.flags0.
Proof.
  split.
  - repeat constructor; discriminate.
  - repeat constructor.
Qed.

Lemma getStatusFlags_chain_witness :
  active (getStatusFlags Sample.flags0 false Sample.imu_only)
    (STATE_VELOCITY_Z Sample.flags0) = true.
Proof.
  apply (proj1 (proj2 (getStatusFlags_chain Sample.flags0 false
                         Sample.imu_only independent_flags0))).
  reflexivity.
Defined.

(** Decimal constants as quotients of integers. *)
Ltac decimals := unfold Q2R; cbn [Qnum Qden].

Ltac quaternion_algebra :=
  unfold Quat.rotate, Quat.mul, Quat.conj, Quat.pure, Quat.scale;
  cbn [Quat.w Quat.x Quat.y Quat.z Vec3.x Vec3.y Vec3.z];
  decimals;
  match goal with
  | |- Quat.Build_t _ _ _ _ = Quat.Build_t _ _ _ _ => f_equal; field
  | |- _ => field
  end.

(** C4, as the code has it: [getDerivative] writes
    - the quaternion derivative [1/2 q * [0, rate]], when the state has an
      orientation;
    - the XY components of the acceleration rotated into the navigation
      frame by [q] as the XY velocity derivative, only when the XY velocity
      is active in the system status (and the state has a velocity);
    - the Z component of the rotated acceleration plus gravity as the Z
      velocity derivative, only when the Z velocity is active (and the state
      has a velocity);
    - the XY (the Z) velocity as the XY (the Z) position derivative, only
      when the XY (the Z) position is active;
    and leaves every other entry of [x_dot] as it finds it. *)
Theorem getDerivative_gating (F : Flags) (m : Model) (x_dot : StateVector)
  (state : State) :
  let q := getOrientation state in
  let v := getVelocity state in
  let status := getSystemStatus state in
  let a := Quat.rotate q (acceleration m) in
  let x' := getDerivative F m x_dot state in
  (if present (getOrientationIndex state) then
     {| Quat.w := x' QUATERNION_W; Quat.x := x' QUATERNION_X;
        Quat.y := x' QUATERNION_Y; Quat.z := x' QUATERNION_Z |}
     = Quat.scale (1 / 2) (Quat.mul q (Quat.pure (rate m)))
   else
     x' QUATERNION_W = x_dot QUATERNION_W
     /\ x' QUATERNION_X = x_dot QUATERNION_X
     /\ x' QUATERNION_Y = x_dot QUATERNION_Y
     /\ x' QUATERNION_Z = x_dot QUATERNION_Z)
  /\ (if active status (STATE_VELOCITY_XY F) && present (getVelocityIndex state)
      then x' VELOCITY_X = Vec3.x a /\ x' VELOCITY_Y = Vec3.y a
      else x' VELOCITY_X = x_dot VELOCITY_X
           /\ x' VELOCITY_Y = x_dot VELOCITY_Y)
  /\ (if active status (STATE_VELOCITY_Z F) && present (getVelocityIndex state)
      then x' VELOCITY_Z = Vec3.z a + gravity_ m
      else x' VELOCITY_Z = x_dot VELOCITY_Z)
  /\ (if active status (STATE_POSITION_XY F)
      then x' POSITION_X = Vec3.x v /\ x' POSITION_Y = Vec3.y v
      else x' POSITION_X = x_dot POSITION_X
           /\ x' POSITION_Y = x_dot POSITION_Y)
  /\ (if active status (STATE_POSITION_Z F)
      then x' POSITION_Z = Vec3.z v
      else x' POSITION_Z = x_dot POSITION_Z)
  /\ x' RATE_X = x_dot RATE_X /\ x' RATE_Y = x_dot RATE_Y
  /\ x' RATE_Z = x_dot RATE_Z.
Proof.
  cbv zeta. unfold getDerivative. cbv zeta.
  destruct (present (getOrientationIndex state));
    destruct (active (getSystemStatus state) (STATE_VELOCITY_XY F)
              && present (getVelocityIndex state));
    destruct (active (getSystemStatus state) (STATE_VELOCITY_Z F)
              && present (getVelocityIndex state));
    destruct (active (getSystemStatus state) (STATE_POSITION_XY F));
    destruct (active (getSystemStatus state) (STATE_POSITION_Z F));
    unfold vset; cbn [StateIndex_eq_dec StateIndex_rec StateIndex_rect
                      sumbool_rec sumbool_rect];
    repeat split; try reflexivity; quaternion_algebra.
Qed.

(** C4 as stated fails: with no velocity in the system status, the
    velocity derivative is not the rotated acceleration; the entries of
    [x_dot] stay as they were (here 0), while the accelerometer feels
    1 m/s^2 along x. *)
Lemma velocity_derivative_counterexample :
  let q := getOrientation Sample.imu_only in
  let x' := getDerivative Sample.flags0 Sample.pushed Sample.zero_vector
              Sample.imu_only in
  active (getSystemStatus Sample.imu_only)
    (STATE_VELOCITY_Z Sample.flags0) = false
  /\ x' VELOCITY_X <> Vec3.x (Quat.rotate q (acceleration Sample.pushed))
  /\ x' VELOCITY_Z <> Vec3.z (Quat.rotate q (acceleration Sample.pushed)).
Proof.
  cbv zeta. split; [reflexivity |].
  unfold getDerivative.
  replace (active (getSystemStatus Sample.imu_only)
             (STATE_VELOCITY_XY Sample.flags0)) with false by reflexivity.
  replace (active (getSystemStatus Sample.imu_only)
             (STATE_VELOCITY_Z Sample.flags0)) with false by reflexivity.
  replace (active (getSystemStatus Sample.imu_only)
             (STATE_POSITION_XY Sample.flags0)) with false by reflexivity.
  replace (active (getSystemStatus Sample.imu_only)
             (STATE_POSITION_Z Sample.flags0)) with false by reflexivity.
  replace (present (getOrientationIndex Sample.imu_only)) with true
    by reflexivity.
  cbv zeta. cbn [andb].
  unfold vset; cbn [StateIndex_eq_dec StateIndex_rec StateIndex_rect
                    sumbool_rec sumbool_rect].
  unfold Sample.zero_vector, Quat.rotate, Quat.mul, Quat.conj, Quat.pure.
  cbn. split; lra.
Qed.

Lemma mset_offdiag (Q : SymmetricMatrix) (k i j : StateIndex) (a : R) :
  i <> j -> mset Q k k a i j = Q i j.
Proof.
  intros H. unfold mset.
  destruct (StateIndex_eq_dec i k) as [-> |]; [| reflexivity].
  destruct (StateIndex_eq_dec j k) as [-> |]; [contradiction | reflexivity].
Qed.

Lemma mset3_offdiag (Q : SymmetricMatrix) (a b c i j : StateIndex) (v : R) :
  i <> j -> mset3 Q a b c v i j = Q i j.
Proof.
  intros H. unfold mset3. now rewrite !mset_offdiag.
Qed.

Ltac eval_mset :=
  unfold mset3, mset;
  cbn [StateIndex_eq_dec StateIndex_rec StateIndex_rect
       sumbool_rec sumbool_rect].

(** C5, as the code has it.  In both modes the four orientation terms of
    the diagonal are set to [0.25 rate_stddev^2] times the sum of the
    squares of the three other quaternion components, provided
    [rate_stddev > 0] and the state has an orientation; otherwise they are
    left as they are.  No entry off the diagonal is ever written.  With
    [init] false no other entry is written.  With [init] true the rate
    block is seeded with [angular_acceleration_stddev^2] when the state has
    a rate sub-vector, the position block with [velocity_stddev^2] when it
    has a position, and the velocity block with [acceleration_stddev^2]
    when it has both a rate and a velocity sub-vector. *)
Theorem getSystemNoise_seeding (m : Model) (Q : SymmetricMatrix)
  (state : State) (init : bool) :
  let q := getOrientation state in
  let Q' := getSystemNoise m Q state init in
  let s := 0.25 * rate_stddev_ m ^ 2 in
  (if Rgtb (rate_stddev_ m) 0.0 && present (getOrientationIndex state) then
     Q' QUATERNION_W QUATERNION_W
     = s * (Quat.x q * Quat.x q + Quat.y q * Quat.y q + Quat.z q * Quat.z q)
     /\ Q' QUATERNION_X QUATERNION_X
        = s * (Quat.w q * Quat.w q + Quat.y q * Quat.y q + Quat.z q * Quat.z q)
     /\ Q' QUATERNION_Y QUATERNION_Y
        = s * (Quat.w q * Quat.w q + Quat.x q * Quat.x q + Quat.z q * Quat.z q)
     /\ Q' QUATERNION_Z QUATERNION_Z
        = s * (Quat.w q * Quat.w q + Quat.x q * Quat.x q + Quat.y q * Quat.y q)
   else
     forall i : StateIndex, is_quaternion i = true -> Q' i i = Q i i)
  /\ (forall i j : StateIndex, i <> j -> Q' i j = Q i j)
  /\ (init = false ->
      forall i : StateIndex, is_quaternion i = false -> Q' i i = Q i i)
  /\ (init = true ->
      (present (getRateIndex state) = true ->
       forall i : StateIndex,
         is_rate i = true -> Q' i i = angular_acceleration_stddev_ m ^ 2)
      /\ (present (getPositionIndex state) = true ->
          forall i : StateIndex,
            is_position i = true -> Q' i i = velocity_stddev_ m ^ 2)
      /\ (present (getRateIndex state) = true ->
          present (getVelocityIndex state) = true ->
          forall i : StateIndex,
            is_velocity i = true -> Q' i i = acceleration_stddev_ m ^ 2)).
Proof.
  cbv zeta. unfold getSystemNoise. cbv zeta. split; [| split; [| split]].
  - destruct (Rgtb (rate_stddev_ m) 0.0 && present (getOrientationIndex state)).
    + eval_mset. repeat split; reflexivity.
    + intros i Hi.
      destruct init; [| reflexivity].
      destruct (present (getRateIndex state));
        destruct (present (getPositionIndex state));
        destruct i; try discriminate Hi; reflexivity.
  - intros i j Hij.
    destruct (Rgtb (rate_stddev_ m) 0.0 && present (getOrientationIndex state));
      rewrite ?mset_offdiag by exact Hij;
      destruct init; try reflexivity;
      destruct (present (getRateIndex state));
      destruct (present (getPositionIndex state));
      rewrite ?mset3_offdiag by exact Hij; reflexivity.
  - intros -> i Hi.
    destruct (Rgtb (rate_stddev_ m) 0.0 && present (getOrientationIndex state));
      [| reflexivity].
    destruct i; try discriminate Hi; reflexivity.
  - intros ->. repeat split.
    + intros -> i Hi.
      destruct (Rgtb (rate_stddev_ m) 0.0
                && present (getOrientationIndex state));
        destruct (present (getPositionIndex state));
        destruct i; try discriminate Hi; reflexivity.
    + intros -> i Hi.
      destruct (Rgtb (rate_stddev_ m) 0.0
                && present (getOrientationIndex state));
        destruct (present (getRateIndex state));
        destruct i; try discriminate Hi; reflexivity.
    + intros -> _ i Hi.
      destruct (Rgtb (rate_stddev_ m) 0.0
                && present (getOrientationIndex state));
        destruct (present (getPositionIndex state));
        destruct i; try discriminate Hi; reflexivity.
Qed.

Lemma Rgtb_0_0 : Rgtb 0 0.0 = false.
Proof.
  unfold Rgtb. destruct (Rlt_dec 0.0 0) as [H | H]; [lra | reflexivity].
Qed.

(** C5 as stated fails: with [rate_stddev_ = 0] and [init] false the
    orientation terms are not refreshed; an entry that held 1 still holds
    1, not [0.25 * 0^2 * (w^2 + y^2 + z^2)]. *)
Lemma orientation_noise_counterexample :
  let q := getOrientation Sample.imu_only in
  getSystemNoise Sample.pushed Sample.unit_matrix Sample.imu_only false
    QUATERNION_X QUATERNION_X
  <> 0.25 * rate_stddev_ Sample.pushed ^ 2
     * (Quat.w q * Quat.w q + Quat.y q * Quat.y q + Quat.z q * Quat.z q).
Proof.
  cbv zeta. unfold getSystemNoise.
  replace (rate_stddev_ Sample.pushed) with 0 by reflexivity.
  rewrite Rgtb_0_0. cbn. lra.
Qed.

(** The guard of the velocity block reads the rate index: on a state
    without rate sub-vector, [init] does not seed the velocity block. *)
Lemma velocity_noise_without_rate (m : Model) (Q : SymmetricMatrix)
  (state : State) (i : StateIndex) :
  present (getRateIndex state) = false ->
  is_velocity i = true ->
  getSystemNoise m Q state true i i = Q i i.
Proof.
  intros Hr Hi. unfold getSystemNoise. rewrite Hr.
  destruct (Rgtb (rate_stddev_ m) 0.0 && present (getOrientationIndex state));
    destruct (present (getPositionIndex state));
    destruct i; try discriminate Hi; reflexivity.
Qed.

Lemma getSystemNoise_seeding_witness :
  let Q' := getSystemNoise Sample.noisy Sample.zero_matrix Sample.with_rate
              true in
  Q' RATE_X RATE_X = (2 * PI) ^ 2
  /\ Q' VELOCITY_Z VELOCITY_Z = 0.01 ^ 2
  /\ Q' QUATERNION_W QUATERNION_X = 0.
Proof.
  destruct (getSystemNoise_seeding Sample.noisy Sample.zero_matrix
              Sample.with_rate true) as (_ & Hoff & _ & Hinit).
  destruct (Hinit eq_refl) as (Hrate & _ & Hvel).
  split; [exact (Hrate eq_refl RATE_X eq_refl) |].
  split; [exact (Hvel eq_refl eq_refl VELOCITY_Z eq_refl) |].
  apply (Hoff QUATERNION_W QUATERNION_X). discriminate.
Defined.

End SystemFacts.

(** ** The process model: linearisation, invariants of the derivative,
       noise and status flags *)

(** Decimal constants as quotients of integers. *)
Ltac decimals := unfold Q2R; cbn [Qnum Qden].

Module SystemLinearization.
Import GenericQuaternionSystemModel.
Import SystemFacts.

Ltac eval_sets :=
  unfold vset, mset;
  cbn [StateIndex_eq_dec StateIndex_rec StateIndex_rect
       sumbool_rec sumbool_rect].

(** A function whose increments are a linear plus a quadratic term in the
    step has the linear coefficient as its derivative. *)
Lemma quadratic_derivable_pt_lim (f : R -> R) (x0 a : R) :
  (forall h : R,
     f (x0 + h) - f x0 = a * h + (f (x0 + 1) - f x0 - a) * (h * h)) ->
  derivable_pt_lim f x0 a.
Proof.
  intros H. set (c := f (x0 + 1) - f x0 - a) in *.
  intros eps Heps.
  assert (Hd : 0 < eps / (Rabs c + 1)).
  { apply Rdiv_lt_0_compat; [exact Heps |]. pose proof (Rabs_pos c). lra. }
  exists (mkposreal _ Hd). intros h Hh Hlt. simpl in Hlt.
  rewrite H.
  replace ((a * h + c * (h * h)) / h - a) with (c * h) by (field; exact Hh).
  rewrite Rabs_mult.
  pose proof (Rabs_pos c) as Hc. pose proof (Rabs_pos h) as Hah.
  apply Rle_lt_trans with ((Rabs c + 1) * Rabs h); [nra |].
  apply Rmult_lt_compat_l with (r := Rabs c + 1) in Hlt; [| lra].
  replace ((Rabs c + 1) * (eps / (Rabs c + 1))) with eps in Hlt
    by (field; lra).
  exact Hlt.
Qed.

(** The entries of the result of [getDerivative], row by row. *)
Lemma getDerivative_entries (F : Flags) (m : Model) (x_dot : StateVector)
  (state : State) (i : StateIndex) :
  let q := getOrientation state in
  let v := getVelocity state in
  let r := rate m in
  let a := acceleration m in
  let status := getSystemStatus state in
  getDerivative F m x_dot state i
  = match i with
    | QUATERNION_W =>
        if present (getOrientationIndex state) then
          0.5 * ((- Vec3.x r) * Quat.x q + (- Vec3.y r) * Quat.y q
                 + (- Vec3.z r) * Quat.z q)
        else x_dot i
    | QUATERNION_X =>
        if present (getOrientationIndex state) then
          0.5 * ((Vec3.x r) * Quat.w q + (Vec3.z r) * Quat.y q
                 + (- Vec3.y r) * Quat.z q)
        else x_dot i
    | QUATERNION_Y =>
        if present (getOrientationIndex state) then
          0.5 * ((Vec3.y r) * Quat.w q + (- Vec3.z r) * Quat.x q
                 + (Vec3.x r) * Quat.z q)
        else x_dot i
    | QUATERNION_Z =>
        if present (getOrientationIndex state) then
          0.5 * ((Vec3.z r) * Quat.w q + (Vec3.y r) * Quat.x q
                 + (- Vec3.x r) * Quat.y q)
        else x_dot i
    | VELOCITY_X =>
        if active status (STATE_VELOCITY_XY F)
           && present (getVelocityIndex state) then
          (Quat.w q * Quat.w q + Quat.x q * Quat.x q - Quat.y q * Quat.y q
           - Quat.z q * Quat.z q) * Vec3.x a
          + (2.0 * Quat.x q * Quat.y q - 2.0 * Quat.w q * Quat.z q) * Vec3.y a
          + (2.0 * Quat.x q * Quat.z q + 2.0 * Quat.w q * Quat.y q) * Vec3.z a
        else x_dot i
    | VELOCITY_Y =>
        if active status (STATE_VELOCITY_XY F)
           && present (getVelocityIndex state) then
          (2.0 * Quat.x q * Quat.y q + 2.0 * Quat.w q * Quat.z q) * Vec3.x a
          + (Quat.w q * Quat.w q - Quat.x q * Quat.x q + Quat.y q * Quat.y q
             - Quat.z q * Quat.z q) * Vec3.y a
          + (2.0 * Quat.y q * Quat.z q - 2.0 * Quat.w q * Quat.x q) * Vec3.z a
        else x_dot i
    | VELOCITY_Z =>
        if active status (STATE_VELOCITY_Z F)
           && present (getVelocityIndex state) then
          (2.0 * Quat.x q * Quat.z q - 2.0 * Quat.w q * Quat.y q) * Vec3.x a
          + (2.0 * Quat.y q * Quat.z q + 2.0 * Quat.w q * Quat.x q) * Vec3.y a
          + (Quat.w q * Quat.w q - Quat.x q * Quat.x q - Quat.y q * Quat.y q
             + Quat.z q * Quat.z q) * Vec3.z a
          + gravity_ m
        else x_dot i
    | POSITION_X =>
        if active status (STATE_POSITION_XY F) then Vec3.x v else x_dot i
    | POSITION_Y =>
        if active status (STATE_POSITION_XY F) then Vec3.y v else x_dot i
    | POSITION_Z =>
        if active status (STATE_POSITION_Z F) then Vec3.z v else x_dot i
    | RATE_X | RATE_Y | RATE_Z => x_dot i
    end.
Proof.
  cbv zeta. unfold getDerivative. cbv zeta.
  destruct (present (getOrientationIndex state));
    destruct (active (getSystemStatus state) (STATE_VELOCITY_XY F)
              && present (getVelocityIndex state));
    destruct (active (getSystemStatus state) (STATE_VELOCITY_Z F)
              && present (getVelocityIndex state));
    destruct (active (getSystemStatus state) (STATE_POSITION_XY F));
    destruct (active (getSystemStatus state) (STATE_POSITION_Z F));
    destruct i; eval_sets; reflexivity.
Qed.
Lemma getStateJacobian_entries (F : Flags) (m : Model) (A : SystemMatrix)
  (state : State) (i j : StateIndex) :
  present (getOrientationIndex state) = true ->
  present (getPositionIndex state) = true ->
  present (getVelocityIndex state) = true ->
  let q := getOrientation state in
  let r := rate m in
  let a := acceleration m in
  let status := getSystemStatus state in
  let with_rate (value : R) :=
    if present (getRateIndex state) then value else A i j in
  let if_xy (value : R) :=
    if active status (STATE_VELOCITY_XY F) then value else 0.0 in
  let if_z (value : R) :=
    if active status (STATE_VELOCITY_Z F) then value else 0.0 in
  getStateJacobian F m A state i j
  = match i, j with
    | QUATERNION_W, QUATERNION_X => -0.5 * Vec3.x r
    | QUATERNION_W, QUATERNION_Y => -0.5 * Vec3.y r
    | QUATERNION_W, QUATERNION_Z => -0.5 * Vec3.z r
    | QUATERNION_X, QUATERNION_W => 0.5 * Vec3.x r
    | QUATERNION_X, QUATERNION_Y => 0.5 * Vec3.z r
    | QUATERNION_X, QUATERNION_Z => -0.5 * Vec3.y r
    | QUATERNION_Y, QUATERNION_W => 0.5 * Vec3.y r
    | QUATERNION_Y, QUATERNION_X => -0.5 * Vec3.z r
    | QUATERNION_Y, QUATERNION_Z => 0.5 * Vec3.x r
    | QUATERNION_Z, QUATERNION_W => 0.5 * Vec3.z r
    | QUATERNION_Z, QUATERNION_X => 0.5 * Vec3.y r
    | QUATERNION_Z, QUATERNION_Y => -0.5 * Vec3.x r
    | QUATERNION_W, RATE_X => with_rate (-0.5 * Quat.x q)
    | QUATERNION_W, RATE_Y => with_rate (-0.5 * Quat.y q)
    | QUATERNION_W, RATE_Z => with_rate (-0.5 * Quat.z q)
    | QUATERNION_X, RATE_X => with_rate (0.5 * Quat.w q)
    | QUATERNION_X, RATE_Y => with_rate (-0.5 * Quat.z q)
    | QUATERNION_X, RATE_Z => with_rate (0.5 * Quat.y q)
    | QUATERNION_Y, RATE_X => with_rate (0.5 * Quat.z q)
    | QUATERNION_Y, RATE_Y => with_rate (0.5 * Quat.w q)
    | QUATERNION_Y, RATE_Z => with_rate (-0.5 * Quat.x q)
    | QUATERNION_Z, RATE_X => with_rate (-0.5 * Quat.y q)
    | QUATERNION_Z, RATE_Y => with_rate (0.5 * Quat.x q)
    | QUATERNION_Z, RATE_Z => with_rate (0.5 * Quat.w q)
    | VELOCITY_X, QUATERNION_W =>
        if_xy (-2.0 * Quat.z q * Vec3.y a + 2.0 * Quat.y q * Vec3.z a
               + 2.0 * Quat.w q * Vec3.x a)
    | VELOCITY_X, QUATERNION_X =>
        if_xy (2.0 * Quat.y q * Vec3.y a + 2.0 * Quat.z q * Vec3.z a
               + 2.0 * Quat.x q * Vec3.x a)
    | VELOCITY_X, QUATERNION_Y =>
        if_xy (-2.0 * Quat.y q * Vec3.x a + 2.0 * Quat.x q * Vec3.y a
               + 2.0 * Quat.w q * Vec3.z a)
    | VELOCITY_X, QUATERNION_Z =>
        if_xy (-2.0 * Quat.z q * Vec3.x a - 2.0 * Quat.w q * Vec3.y a
               + 2.0 * Quat.x q * Vec3.z a)
    | VELOCITY_Y, QUATERNION_W =>
        if_xy (2.0 * Quat.z q * Vec3.x a - 2.0 * Quat.x q * Vec3.z a
               + 2.0 * Quat.w q * Vec3.y a)
    | VELOCITY_Y, QUATERNION_X =>
        if_xy (2.0 * Quat.y q * Vec3.x a - 2.0 * Quat.x q * Vec3.y a
               - 2.0 * Quat.w q * Vec3.z a)
    | VELOCITY_Y, QUATERNION_Y =>
        if_xy (2.0 * Quat.x q * Vec3.x a + 2.0 * Quat.z q * Vec3.z a
               + 2.0 * Quat.y q * Vec3.y a)
    | VELOCITY_Y, QUATERNION_Z =>
        if_xy (2.0 * Quat.w q * Vec3.x a - 2.0 * Quat.z q * Vec3.y a
               + 2.0 * Quat.y q * Vec3.z a)
    | VELOCITY_Z, QUATERNION_W =>
        if_z (-2.0 * Quat.y q * Vec3.x a + 2.0 * Quat.x q * Vec3.y a
              + 2.0 * Quat.w q * Vec3.z a)
    | VELOCITY_Z, QUATERNION_X =>
        if_z (2.0 * Quat.z q * Vec3.x a + 2.0 * Quat.w q * Vec3.y a
              - 2.0 * Quat.x q * Vec3.z a)
    | VELOCITY_Z, QUATERNION_Y =>
        if_z (-2.0 * Quat.w q * Vec3.x a + 2.0 * Quat.z q * Vec3.y a
              - 2.0 * Quat.y q * Vec3.z a)
    | VELOCITY_Z, QUATERNION_Z =>
        if_z (2.0 * Quat.x q * Vec3.x a + 2.0 * Quat.y q * Vec3.y a
              + 2.0 * Quat.z q * Vec3.z a)
    | POSITION_X, VELOCITY_X =>
        if active status (STATE_POSITION_XY F) then 1.0 else 0.0
    | POSITION_Y, VELOCITY_Y =>
        if active status (STATE_POSITION_XY F) then 1.0 else 0.0
    | POSITION_Z, VELOCITY_Z =>
        if active status (STATE_POSITION_Z F) then 1.0 else 0.0
    | _, _ => A i j
    end.
Proof.
  intros Ho Hp Hv. cbv zeta. unfold getStateJacobian. cbv zeta.
  rewrite Ho, Hp, Hv. cbn [andb].
  destruct (present (getRateIndex state));
    destruct (active (getSystemStatus state) (STATE_VELOCITY_XY F));
    destruct (active (getSystemStatus state) (STATE_VELOCITY_Z F));
    destruct (active (getSystemStatus state) (STATE_POSITION_XY F));
    destruct (active (getSystemStatus state) (STATE_POSITION_Z F));
    destruct i; destruct j; reflexivity.
Qed.

(** X1: [getStateJacobian] is the Jacobian of [getDerivative].  For a state
    with orientation, position and velocity sub-vectors and a matrix [A]
    that starts at zero, every entry [(i, j)] of the matrix computed after
    [prepareUpdate] is the partial derivative of the component [i] of the
    derivative computed after [prepareUpdate] with respect to the
    component [j] of the state, whatever flags are active. *)
Theorem jacobian_is_derivative (F : Flags) (m : Model) (inputs : Inputs)
  (x_dot : StateVector) (A : SystemMatrix) (state : State)
  (i j : StateIndex) :
  present (getOrientationIndex state) = true ->
  present (getPositionIndex state) = true ->
  present (getVelocityIndex state) = true ->
  (forall k l : StateIndex, A k l = 0) ->
  derivable_pt_lim
    (fun t : R => derivative_at F m inputs x_dot (set_component state j t) i)
    (get_component state j)
    (jacobian_at F m inputs A state i j).
Proof.
  intros Ho Hp Hv HA. apply quadratic_derivable_pt_lim. intros h.
  unfold derivative_at, jacobian_at.
  rewrite !getDerivative_entries.
  rewrite (getStateJacobian_entries F _ A state i j Ho Hp Hv).
  cbv zeta. unfold prepareUpdate, set_component. 
  cbn [snd rate acceleration gravity_ getOrientation getVelocity getRate
       getAcceleration getSystemStatus getOrientationIndex getRateIndex
       getVelocityIndex getAccelerationIndex getPositionIndex].
  rewrite Ho, Hv, HA, ?andb_true_r.
  set (a := if present (getAccelerationIndex state) then _ else _).
  clearbody a.
  destruct (present (getRateIndex state));
    destruct i; destruct j;
    cbn [get_component Quat.w Quat.x Quat.y Quat.z Vec3.x Vec3.y Vec3.z
         andb];
    repeat match goal with
      | |- context [if ?b then _ else _] => destruct b
      end;
    decimals; field.
Qed.

Lemma jacobian_is_derivative_witness :
  derivable_pt_lim
    (fun t : R =>
       derivative_at Sample.flags0 Sample.noisy Sample.at_rest
         Sample.zero_vector
         (set_component Sample.aided QUATERNION_W t) VELOCITY_Z)
    (get_component Sample.aided QUATERNION_W)
    (jacobian_at Sample.flags0 Sample.noisy Sample.at_rest
       Sample.zero_matrix Sample.aided VELOCITY_Z QUATERNION_W).
Proof.
  apply (jacobian_is_derivative Sample.flags0 Sample.noisy Sample.at_rest
           Sample.zero_vector Sample.zero_matrix Sample.aided
           VELOCITY_Z QUATERNION_W); reflexivity.
Defined.







Lemma mset_diag_nonneg (Q : SymmetricMatrix) (k : StateIndex) (a : R) :
  0 <= a -> (forall i : StateIndex, 0 <= Q i i) ->
  forall i : StateIndex, 0 <= mset Q k k a i i.
Proof.
  intros Ha HQ i. unfold mset.
  destruct (StateIndex_eq_dec i k); [assumption | apply HQ].
Qed.

Lemma mset3_diag_nonneg (Q : SymmetricMatrix) (a b c : StateIndex) (v : R) :
  0 <= v -> (forall i : StateIndex, 0 <= Q i i) ->
  forall i : StateIndex, 0 <= mset3 Q a b c v i i.
Proof.
  intros Hv HQ. unfold mset3.
  assert (H1 : forall i, 0 <= mset Q c c v i i)
    by now apply mset_diag_nonneg.
  assert (H2 : forall i, 0 <= mset (mset Q c c v) b b (mset Q c c v c c) i i)
    by (apply mset_diag_nonneg; [apply H1 | exact H1]).
  apply mset_diag_nonneg; [apply H2 | exact H2].
Qed.

(** X5: [getSystemNoise] keeps a valid diagonal covariance: if [Q] is zero
    off the diagonal and non-negative on it, so is the result, in both
    modes and for every state and parameter. *)
Theorem getSystemNoise_valid (m : Model) (Q : SymmetricMatrix) (state : State)
  (init : bool) :
  (forall i j : StateIndex, i <> j -> Q i j = 0) ->
  (forall i : StateIndex, 0 <= Q i i) ->
  let Q' := getSystemNoise m Q state init in
  (forall i j : StateIndex, i <> j -> Q' i j = 0)
  /\ (forall i : StateIndex, 0 <= Q' i i).
Proof.
  intros Hoff Hdiag. cbv zeta. split.
  - intros i j Hij. rewrite <- (Hoff i j Hij). unfold getSystemNoise.
    destruct (Rgtb (rate_stddev_ m) 0.0 && present (getOrientationIndex state));
      rewrite ?mset_offdiag by exact Hij;
      destruct init; try reflexivity;
      destruct (present (getRateIndex state));
      destruct (present (getPositionIndex state));
      rewrite ?mset3_offdiag by exact Hij; reflexivity.
  - unfold getSystemNoise.
    assert (Hq : forall a b c : R,
               0 <= 0.25 * rate_stddev_ m ^ 2 * (a * a + b * b + c * c)).
    { intros a b c. pose proof (pow2_ge_0 (rate_stddev_ m)).
      apply Rmult_le_pos; [decimals; lra | nra]. }
    destruct (Rgtb (rate_stddev_ m) 0.0 && present (getOrientationIndex state));
      destruct init;
      destruct (present (getRateIndex state));
      destruct (present (getPositionIndex state));
      cbv zeta;
      repeat first
        [ exact Hdiag
        | apply mset_diag_nonneg; [apply Hq |]
        | apply mset3_diag_nonneg; [apply pow2_ge_0 |] ].
Qed.

Lemma getSystemNoise_valid_witness :
  0 <= getSystemNoise Sample.noisy Sample.zero_matrix Sample.aided true
         QUATERNION_Z QUATERNION_Z.
Proof.
  apply (getSystemNoise_valid Sample.noisy Sample.zero_matrix Sample.aided
           true).
  - intros i j _. reflexivity.
  - intros i. unfold Sample.zero_matrix. lra.
Defined.

(** X6: [getPrior] keeps a valid diagonal covariance: if [P] is zero off
    the diagonal and non-negative on it, so is the prior. *)
Theorem getPrior_valid (P : SymmetricMatrix) (state : State) :
  (forall i j : StateIndex, i <> j -> P i j = 0) ->
  (forall i : StateIndex, 0 <= P i i) ->
  let P' := getPrior P state in
  (forall i j : StateIndex, i <> j -> P' i j = 0)
  /\ (forall i : StateIndex, 0 <= P' i i).
Proof.
  intros Hoff Hdiag. cbv zeta. split.
  - intros i j Hij. rewrite <- (Hoff i j Hij). unfold getPrior.
    destruct (present (getOrientationIndex state));
      destruct (present (getRateIndex state));
      destruct (present (getPositionIndex state));
      destruct (present (getVelocityIndex state));
      rewrite ?mset_offdiag by exact Hij; reflexivity.
  - unfold getPrior.
    assert (H0 : 0 <= 0.0) by (decimals; lra).
    assert (H1 : 0 <= 0.25 * 1.0) by (decimals; lra).
    assert (H2 : 0 <= (0.0 * PI / 180.0) ^ 2) by apply pow2_ge_0.
    destruct (present (getOrientationIndex state));
      destruct (present (getRateIndex state));
      destruct (present (getPositionIndex state));
      destruct (present (getVelocityIndex state));
      cbv zeta;
      repeat first
        [ exact Hdiag
        | apply mset_diag_nonneg; [first [exact H0 | exact H1 | exact H2] |] ].
Qed.

Lemma getPrior_valid_witness :
  0 <= getPrior Sample.zero_matrix Sample.aided QUATERNION_W QUATERNION_W.
Proof.
  apply (getPrior_valid Sample.zero_matrix Sample.aided).
  - intros i j _. reflexivity.
  - intros i. unfold Sample.zero_matrix. lra.
Defined.

(** X7: [getStatusFlags] never clears a flag: whatever is active in the
    measurement status is active in the returned system status, for any
    values of the flags. *)
Theorem getStatusFlags_never_clears (F : Flags) (USE_RATE_SYSTEM_MODEL : bool)
  (state : State) (k : SystemStatus) :
  active (getMeasurementStatus state) k = true ->
  active (getStatusFlags F USE_RATE_SYSTEM_MODEL state) k = true.
Proof.
  intros H. unfold getStatusFlags. cbv zeta.
  repeat match goal with
    | |- context [if ?b then _ else _] => destruct b
    end;
    rewrite ?active_lor, H; reflexivity.
Qed.

Lemma getStatusFlags_never_clears_witness :
  active (getStatusFlags Sample.flags0 true Sample.aided)
    (STATE_POSITION_XY Sample.flags0) = true.
Proof.
  apply (getStatusFlags_never_clears Sample.flags0 true Sample.aided).
  reflexivity.
Defined.

Lemma if_lor (c : bool) (f V : N) :
  (if c then N.lor f V else f) = N.lor f (if c then V else 0%N).
Proof. destruct c; [reflexivity | now rewrite N.lor_0_r]. Qed.

Lemma active_if (c : bool) (V k : N) :
  active (if c then V else 0%N) k = c && active V k.
Proof. destruct c; reflexivity. Qed.

(** X8: [getStatusFlags] is idempotent: fed with its own result as the
    measurement status it returns that result (the flags being
    independent bits). *)
Theorem getStatusFlags_idempotent (F : Flags) (USE_RATE_SYSTEM_MODEL : bool)
  (state : State) :
  independent F ->
  getStatusFlags F USE_RATE_SYSTEM_MODEL
    (with_measurement_status state
       (getStatusFlags F USE_RATE_SYSTEM_MODEL state))
  = getStatusFlags F USE_RATE_SYSTEM_MODEL state.
Proof.
  intros H. unfold independent in H. cbv zeta in H. split_independent H.
  unfold getStatusFlags, with_measurement_status.
  cbn [getMeasurementStatus]. cbv zeta.
  set (m := getMeasurementStatus state).
  destruct USE_RATE_SYSTEM_MODEL;
    rewrite !if_lor;
    repeat (progress rewrite ?active_lor, ?active_if);
    repeat match goal with h : active _ _ = _ |- _ => rewrite !h; clear h end;
    rewrite ?andb_false_r, ?orb_false_r, ?andb_true_r, ?orb_true_r;
    destruct (active m (STATE_POSITION_XY F));
    destruct (active m (STATE_POSITION_Z F));
    destruct (active m (STATE_VELOCITY_XY F));
    destruct (active m (STATE_ROLLPITCH F));
    cbn [orb andb]; rewrite ?N.lor_0_r;
    apply N.bits_inj; intros n; rewrite ?N.lor_spec;
    repeat match goal with
      | |- context [N.testbit ?a n] => destruct (N.testbit a n)
      end; reflexivity.
Qed.

Lemma getStatusFlags_idempotent_witness :
  getStatusFlags Sample.flags0 false
    (with_measurement_status Sample.aided
       (getStatusFlags Sample.flags0 false Sample.aided))
  = getStatusFlags Sample.flags0 false Sample.aided.
Proof.
  apply (getStatusFlags_idempotent Sample.flags0 false Sample.aided).
  exact independent_flags0.
Defined.

End SystemLinearization.

(** ** The measurement models *)

Module MeasurementModelFacts.
Import MeasurementModel.

(** X9: the noise covariances set by [GPSModel::init] and
    [HeightModel::init] are valid: [init] returns true, the GPS matrix is
    symmetric and diagonal with the squared position deviation twice and
    the squared velocity deviation twice, the height matrix holds the
    squared deviation, and both quadratic forms are non-negative. *)
Theorem noise_covariance_valid (g : GPSModel.t) (h : HeightModelBase.t)
  (v : list R) :
  let Ng := AdditiveNoiseSigma (GPSModel.base (snd (GPSModel.init g))) in
  let Nh :=
    AdditiveNoiseSigma (HeightModelBase.base (snd (HeightModelBase.init h))) in
  fst (GPSModel.init g) = true
  /\ fst (HeightModelBase.init h) = true
  /\ (forall i j : nat, entry Ng i j = entry Ng j i)
  /\ (forall i j : nat, i <> j -> entry Ng i j = 0)
  /\ entry Ng 1 1 = GPSModel.position_stddev_ g ^ 2
  /\ entry Ng 2 2 = GPSModel.position_stddev_ g ^ 2
  /\ entry Ng 3 3 = GPSModel.velocity_stddev_ g ^ 2
  /\ entry Ng 4 4 = GPSModel.velocity_stddev_ g ^ 2
  /\ 0 <= quadratic_form Ng v
  /\ entry Nh 1 1 = HeightMeasurement.stddev_ (HeightModelBase.model h) ^ 2
  /\ 0 <= quadratic_form Nh v.
Proof.
  cbv zeta.
  assert (Z0 : 0.0 = 0) by (decimals; lra).
  assert (EG : AdditiveNoiseSigma (GPSModel.base (snd (GPSModel.init g)))
               = [[GPSModel.position_stddev_ g ^ 2; 0.0; 0.0; 0.0];
                  [0.0; GPSModel.position_stddev_ g ^ 2; 0.0; 0.0];
                  [0.0; 0.0; GPSModel.velocity_stddev_ g ^ 2; 0.0];
                  [0.0; 0.0; 0.0; GPSModel.velocity_stddev_ g ^ 2]])
    by reflexivity.
  assert (EH : AdditiveNoiseSigma
                 (HeightModelBase.base (snd (HeightModelBase.init h)))
               = [[HeightMeasurement.stddev_ (HeightModelBase.model h) ^ 2]])
    by reflexivity.
  rewrite EG, EH.
  pose proof (pow2_ge_0 (GPSModel.position_stddev_ g)) as Hp.
  pose proof (pow2_ge_0 (GPSModel.velocity_stddev_ g)) as Hv.
  pose proof (pow2_ge_0 (HeightMeasurement.stddev_ (HeightModelBase.model h)))
    as Hh.
  repeat split.
  - intros i j.
    destruct i as [| [| [| [| [| i]]]]]; destruct j as [| [| [| [| [| j]]]]];
      unfold entry; cbn;
      repeat match goal with
        | |- context [nth_error [] ?k] => destruct k; cbn
        end; reflexivity.
  - intros i j Hij.
    destruct i as [| [| [| [| [| i]]]]]; destruct j as [| [| [| [| [| j]]]]];
      try (now elim Hij); unfold entry; cbn;
      repeat match goal with
        | |- context [nth_error [] ?k] => destruct k; cbn
        end; first [exact Z0 | reflexivity].
  - unfold quadratic_form.
    set (P := GPSModel.position_stddev_ g ^ 2) in *.
    set (V := GPSModel.velocity_stddev_ g ^ 2) in *.
    clearbody P V.
    destruct v as [| a [| b [| c [| d r]]]]; cbn [map dot]; rewrite ?Z0;
      try pose proof (Rmult_le_pos _ _ Hp (Rle_0_sqr a));
      try pose proof (Rmult_le_pos _ _ Hp (Rle_0_sqr b));
      try pose proof (Rmult_le_pos _ _ Hv (Rle_0_sqr c));
      try pose proof (Rmult_le_pos _ _ Hv (Rle_0_sqr d));
      unfold Rsqr in *;
      try replace (dot r []) with 0 by (destruct r; reflexivity); nra.
  - unfold quadratic_form.
    set (S := HeightMeasurement.stddev_ (HeightModelBase.model h) ^ 2) in *.
    clearbody S.
    destruct v as [| a r]; cbn [map dot];
      try pose proof (Rmult_le_pos _ _ Hh (Rle_0_sqr a));
      unfold Rsqr in *;
      try replace (dot r []) with 0 by (destruct r; reflexivity); nra.
Qed.

Ltac eval_rows :=
  unfold times, row_times, state_indices, vset;
  cbn [map fold_right StateIndex_eq_dec StateIndex_rec StateIndex_rect
       sumbool_rec sumbool_rect].

(** X10: the GPS measurement is linear with the Jacobian the model
    reports: for a model fresh from its constructor, [ExpectedValueGet]
    returns [dfGet(0)] times the state, before and after [dfGet] has been
    called, a second [dfGet(0)] acts the same, and [dfGet(i)] for [i > 0]
    returns the empty matrix and leaves the model alone. *)
Theorem gps_measurement_is_linear (fresh : list R) (x : StateVector)
  (i : nat) :
  length fresh = GPSModel.MeasurementDimension ->
  let m := GPSModel.new fresh in
  let C := snd (GPSModel.dfGet m 0) in
  snd (GPSModel.ExpectedValueGet m x) = times C x
  /\ snd (GPSModel.ExpectedValueGet (fst (GPSModel.dfGet m 0)) x) = times C x
  /\ times (snd (GPSModel.dfGet (fst (GPSModel.dfGet m 0)) 0)) x = times C x
  /\ snd (GPSModel.dfGet m (S i)) = []
  /\ fst (GPSModel.dfGet m (S i)) = m.
Proof.
  intros Hl. cbv zeta.
  destruct fresh as [| a [| b [| c [| d [| e r]]]]]; try discriminate Hl.
  assert (E : times (snd (GPSModel.dfGet (GPSModel.new [a; b; c; d]) 0)) x
              = [x POSITION_X; x POSITION_Y; x VELOCITY_X; x VELOCITY_Y]).
  { unfold GPSModel.dfGet, GPSModel.new, new, mat_set.
    cbn [GPSModel.base C_ GPSModel.MeasurementDimension repeat vec_get
         nth_error vec_set snd].
    eval_rows. decimals.
    f_equal; [field |]. f_equal; [field |]. f_equal; [field |].
    f_equal. field. }
  rewrite E. repeat split.
  - unfold GPSModel.dfGet, GPSModel.new, new, mat_set, with_C.
    cbn [GPSModel.base C_ GPSModel.MeasurementDimension repeat vec_get
         nth_error vec_set snd fst].
    eval_rows. decimals.
    f_equal; [field |]. f_equal; [field |]. f_equal; [field |].
    f_equal. field.
Qed.

Lemma gps_measurement_is_linear_witness :
  snd (GPSModel.ExpectedValueGet (GPSModel.new [0; 0; 0; 0]) Sample.state0)
  = times (snd (GPSModel.dfGet (GPSModel.new [0; 0; 0; 0]) 0)) Sample.state0.
Proof.
  apply (gps_measurement_is_linear [0; 0; 0; 0] Sample.state0 0).
  reflexivity.
Defined.

(** X11: the height measurement is affine with the Jacobian the model
    reports: [ExpectedValueGet] returns [dfGet(0)] times the state plus
    the elevation, and [dfGet(i)] for [i > 0] returns the empty matrix. *)
Theorem height_measurement_is_affine (fresh elevation : R) (x : StateVector)
  (i : nat) :
  let m := HeightModelBase.new fresh in
  let C := snd (HeightModelBase.dfGet m 0) in
  snd (HeightMeasurement.ExpectedValueGet
         (HeightMeasurement.setElevation (HeightModelBase.model m) elevation)
         x)
  = map (fun y => y + elevation) (times C x)
  /\ snd (HeightModelBase.dfGet m (S i)) = [].
Proof.
  cbv zeta. split; [| reflexivity].
  unfold HeightModelBase.dfGet, HeightModelBase.new, new, mat_set.
  cbn [HeightModelBase.base C_ HeightModelBase.MeasurementDimension repeat
       vec_get nth_error vec_set snd].
  unfold times, row_times, state_indices, vset.
  cbn [map fold_right StateIndex_eq_dec StateIndex_rec StateIndex_rect
       sumbool_rec sumbool_rect].
  unfold HeightMeasurement.ExpectedValueGet, HeightMeasurement.getElevation.
  cbn. decimals. f_equal. field.
Qed.

End MeasurementModelFacts.

(** ** GPS: how [beforeUpdate] and [getVector] compose *)

Module GPSSequenceFacts.
Import GPSMeasurement.
Import GPSFacts.

Section Facts.
Variable Radius : R -> R * R.

Lemma beforeUpdate_reference (g : GPS) (e : PoseEstimation) (st : Store)
  (u : GPSUpdate) :
  let o := beforeUpdate Radius g e st u in
  reference_ (gps_after o) = Some (globalReference e)
  /\ timedout (gps_after o) = timedout g
  /\ y_ (gps_after o) = y_ g
  /\ estimator_after o = e.
Proof.
  destruct (beforeUpdate_cases g e) as [[Ht Hr] | H].
  - rewrite (beforeUpdate_same_reference Radius g e st u Ht Hr). simpl. auto.
  - rewrite (beforeUpdate_new_reference Radius g e st u H). simpl. auto.
Qed.

(** X12: after [beforeUpdate], [getVector] takes the branch with a
    reference: it returns the position and the velocity of the fix as the
    global reference of the estimator converts them ([fromWGS84],
    [fromNorthEast]), not the four [0.0/0.0]; it stores them in [y_] and
    records the update as [last_]. *)
Theorem getVector_after_beforeUpdate (g : GPS) (e : PoseEstimation)
  (st : Store) (u u' : GPSUpdate) :
  length (y_ g) = 4%nat ->
  let o := beforeUpdate Radius g e st u in
  let r := getVector Radius (gps_after o) (store_after o) u' in
  let anchor := store_after o (globalReference e) in
  let p := GlobalReference.fromWGS84 Radius anchor
             (latitude u') (longitude u') in
  let v := GlobalReference.fromNorthEast anchor
             (velocity_north u') (velocity_east u') in
  snd r = [Num (fst p); Num (snd p); Num (fst v); Num (snd v)]
  /\ y_ (fst r) = snd r
  /\ last_ (fst r) = u'
  /\ reference_ (fst r) = Some (globalReference e).
Proof.
  intros Hl. cbv zeta.
  destruct (beforeUpdate_reference g e st u) as (Hr & _ & Hy & _).
  unfold getVector. rewrite Hr, Hy.
  destruct (GlobalReference.fromWGS84 _ _ _ _) as [px py].
  destruct (GlobalReference.fromNorthEast _ _ _) as [vx vy].
  destruct (y_ g) as [| a [| b [| c [| d [| x r]]]]]; try discriminate Hl.
  simpl. repeat split.
Qed.

(** X13: once [beforeUpdate] has run on a GPS that has not timed out, a
    further [beforeUpdate], with any fix, changes nothing: the anchor is
    set by the first fix only. *)
Theorem beforeUpdate_settles (g : GPS) (e : PoseEstimation) (st : Store)
  (u u' : GPSUpdate) :
  timedout g = false ->
  let o := beforeUpdate Radius g e st u in
  beforeUpdate Radius (gps_after o) (estimator_after o) (store_after o) u'
  = {| returned := true; gps_after := gps_after o;
       estimator_after := estimator_after o; store_after := store_after o |}.
Proof.
  intros Ht. cbv zeta.
  destruct (beforeUpdate_reference g e st u) as (Hr & Ht' & _ & He).
  apply beforeUpdate_same_reference.
  - now rewrite Ht'.
  - now rewrite Hr, He.
Qed.

(** X14: re-anchoring makes the fix agree with the state.  With the
    equirectangular conversion of the global reference (scale [north],
    [east], not zero and the same at the fix and at the new anchor), the
    position that [getVector] returns for the fix that re-anchored the
    reference is the position of the state. *)
Theorem reanchor_gives_zero_innovation (g : GPS) (e : PoseEstimation)
  (st : Store) (u : GPSUpdate) (north east : R) :
  timedout g = true \/ reference_ g <> Some (globalReference e) ->
  length (y_ g) = 4%nat ->
  let o := beforeUpdate Radius g e st u in
  let anchor := GlobalReference.position (store_after o (globalReference e)) in
  Radius (latitude u) = (north, east) ->
  Radius (GlobalReference.latitude anchor) = (north, east) ->
  north <> 0 -> east <> 0 ->
  let y := snd (getVector Radius (gps_after o) (store_after o) u) in
  vec_get y 1 = Some (Num (getState e POSITION_X))
  /\ vec_get y 2 = Some (Num (getState e POSITION_Y)).
Proof.
  intros H Hl. cbv zeta. intros HRu HRa Hn He.
  rewrite (beforeUpdate_new_reference Radius g e st u H) in *.
  cbv zeta in *. cbn [gps_after store_after] in *.
  rewrite store_set_same in *.
  unfold getVector. cbn [reference_ y_]. rewrite store_set_same.
  unfold GlobalReference.fromWGS84.
  rewrite HRa.
  destruct (GlobalReference.fromNorthEast _ _ _) as [vx vy].
  unfold GlobalReference.toWGS84, GlobalReference.setPosition in *.
  cbn [GlobalReference.position GlobalReference.latitude
       GlobalReference.longitude fst snd] in *.
  rewrite HRu in *. cbn [fst snd] in *.
  destruct (y_ g) as [| a [| b [| c [| d [| x r]]]]]; try discriminate Hl.
  cbn. split; do 2 f_equal; field; assumption.
Qed.

End Facts.

Lemma getVector_after_beforeUpdate_witness :
  last_ (fst (getVector Sample.Radius0
                (gps_after (beforeUpdate Sample.Radius0 Sample.gps_new
                              Sample.estimator0 Sample.store0 Sample.fix1))
                (store_after (beforeUpdate Sample.Radius0 Sample.gps_new
                                Sample.estimator0 Sample.store0 Sample.fix1))
                Sample.fix0))
  = Sample.fix0.
Proof.
  apply (getVector_after_beforeUpdate Sample.Radius0 Sample.gps_new
           Sample.estimator0 Sample.store0 Sample.fix1 Sample.fix0).
  reflexivity.
Defined.

Lemma beforeUpdate_settles_witness :
  store_after
    (beforeUpdate Sample.Radius0
       (gps_after (beforeUpdate Sample.Radius0 Sample.gps_new
                     Sample.estimator0 Sample.store0 Sample.fix1))
       (estimator_after (beforeUpdate Sample.Radius0 Sample.gps_new
                           Sample.estimator0 Sample.store0 Sample.fix1))
       (store_after (beforeUpdate Sample.Radius0 Sample.gps_new
                       Sample.estimator0 Sample.store0 Sample.fix1))
       Sample.fix0)
  = store_after (beforeUpdate Sample.Radius0 Sample.gps_new
                   Sample.estimator0 Sample.store0 Sample.fix1).
Proof.
  rewrite (beforeUpdate_settles Sample.Radius0 Sample.gps_new
             Sample.estimator0 Sample.store0 Sample.fix1 Sample.fix0
             eq_refl).
  reflexivity.
Defined.

Lemma reanchor_gives_zero_innovation_witness :
  vec_get
    (snd (getVector Sample.Radius0
            (gps_after (beforeUpdate Sample.Radius0 Sample.gps_lost
                          Sample.estimator0 Sample.store0 Sample.fix1))
            (store_after (beforeUpdate Sample.Radius0 Sample.gps_lost
                            Sample.estimator0 Sample.store0 Sample.fix1))
            Sample.fix1)) 1
  = Some (Num (getState Sample.estimator0 POSITION_X)).
Proof.
  apply (reanchor_gives_zero_innovation Sample.Radius0 Sample.gps_lost
           Sample.estimator0 Sample.store0 Sample.fix1 6378137 6378137).
  - left. reflexivity.
  - reflexivity.
  - reflexivity.
  - reflexivity.
  - lra.
  - lra.
Defined.

End GPSSequenceFacts.

(** ** Height: the elevation lives in the shared global reference *)

Module HeightSharingFacts.
Import HeightMeasurement.
Import HeightFacts.

(** X15: the elevation is shared through the global reference.  When a
    second height measurement on the same estimator takes its first
    sample after the first one has, it overwrites the reference altitude,
    and the next sample of the first measurement adopts that elevation
    instead of the one it had solved itself. *)
Theorem elevation_is_shared (h1 h2 : Height) (addr : nat) (st : Store)
  (x1 x2 x3 : StateVector) (u1 u2 u3 : Update.Update_) :
  elevation_initialized_ (common h1) = false ->
  elevation_initialized_ (common h2) = false ->
  let o1 := beforeUpdate h1 {| getState := x1; globalReference := addr |}
              st u1 in
  let o2 := beforeUpdate h2 {| getState := x2; globalReference := addr |}
              (store_after o1) u2 in
  let o3 := beforeUpdate (height_after o1)
              {| getState := x3; globalReference := addr |}
              (store_after o2) u3 in
  getElevation (model (height_after o1))
  = vec_read (Update.getVector u1) 1 - x1 POSITION_Z
  /\ getElevation (model (height_after o3))
     = vec_read (Update.getVector u2) 1 - x2 POSITION_Z
  /\ getElevation (model (height_after o3))
     = getElevation (model (height_after o2)).
Proof.
  intros H1 H2. cbv zeta.
  rewrite (beforeUpdate_not_initialized h1 _ st u1 H1). cbv zeta.
  cbn [height_after store_after getState globalReference].
  rewrite (beforeUpdate_not_initialized h2 _ _ u2 H2). cbv zeta.
  cbn [height_after store_after getState globalReference].
  rewrite beforeUpdate_initialized by reflexivity.
  cbn [height_after model getElevation setElevation elevation_ globalReference].
  rewrite !store_set_same. cbn. auto.
Qed.

Lemma elevation_is_shared_witness :
  let e := {| getState := Sample.level0; globalReference := 1%nat |} in
  let o1 := beforeUpdate (Height_new 0) e Sample.store0 Sample.height10 in
  let o2 := beforeUpdate (Height_new 0) e (store_after o1)
              (Update.Update_of_double [0] [] 12) in
  let o3 := beforeUpdate (height_after o1) e (store_after o2)
              Sample.height10 in
  getElevation (model (height_after o3))
  = vec_read (Update.getVector (Update.Update_of_double [0] [] 12)) 1
    - Sample.level0 POSITION_Z.
Proof.
  apply (elevation_is_shared (Height_new 0) (Height_new 0) 1%nat
           Sample.store0 Sample.level0 Sample.level0 Sample.level0
           Sample.height10 (Update.Update_of_double [0] [] 12)
           Sample.height10); reflexivity.
Defined.

End HeightSharingFacts.

(** ** The measurement envelope: values and covariance do not interfere *)

Module UpdateSequenceFacts.
Import Update.

Lemma run_app (u : Update_) (cs ds : list call) :
  run u (cs ++ ds) = run (run u cs) ds.
Proof. unfold run. apply fold_left_app. Qed.

Lemma run_vector_only (cs : list call) :
  forall u u' : Update_, y_ u = y_ u' -> y_ (run u cs) = y_ (run u' cs).
Proof.
  induction cs as [| c cs IH]; intros u u' H; [exact H |].
  unfold run. simpl. apply IH.
  destruct c; simpl; congruence.
Qed.

Lemma run_covariance_only (cs : list call) :
  forall u u' : Update_,
    R_ u = R_ u' -> has_covariance_ u = has_covariance_ u' ->
    R_ (run u cs) = R_ (run u' cs)
    /\ has_covariance_ (run u cs) = has_covariance_ (run u' cs).
Proof.
  induction cs as [| c cs IH]; intros u u' H1 H2; [auto |].
  unfold run. simpl. apply IH; destruct c; simpl; congruence.
Qed.

(** X16: in any sequence of calls on an [Update_], a [setCovariance] does
    not change the vector that [getVector] returns at the end, and a
    [setValue] (of a vector or of a scalar) changes neither the covariance
    nor [hasCovariance]. *)
Theorem value_and_covariance_independent (u : Update_) (cs ds : list call)
  (C : Covariance) (v : list R) (y : R) :
  getVector (run u (cs ++ SetCovariance C :: ds)) = getVector (run u (cs ++ ds))
  /\ getCovariance (run u (cs ++ SetValue v :: ds))
     = getCovariance (run u (cs ++ ds))
  /\ hasCovariance (run u (cs ++ SetValue v :: ds))
     = hasCovariance (run u (cs ++ ds))
  /\ getCovariance (run u (cs ++ SetValueDouble y :: ds))
     = getCovariance (run u (cs ++ ds))
  /\ hasCovariance (run u (cs ++ SetValueDouble y :: ds))
     = hasCovariance (run u (cs ++ ds)).
Proof.
  unfold getVector, getCovariance, hasCovariance.
  rewrite !run_app.
  change (run (run u cs) (SetCovariance C :: ds))
    with (run (setCovariance (run u cs) C) ds).
  change (run (run u cs) (SetValue v :: ds))
    with (run (setValue (run u cs) v) ds).
  change (run (run u cs) (SetValueDouble y :: ds))
    with (run (setValue_double (run u cs) y) ds).
  split; [apply run_vector_only; reflexivity |].
  destruct (run_covariance_only ds (setValue (run u cs) v) (run u cs)
              eq_refl eq_refl) as [A1 A2].
  destruct (run_covariance_only ds (setValue_double (run u cs) y) (run u cs)
              eq_refl eq_refl) as [B1 B2].
  auto.
Qed.

End UpdateSequenceFacts.

(** ** The PID controllers of the simple quadrotor controller *)

Module PIDFacts.
Import PIDController.

Lemma gtb_true (a b : R) : gtb a b = true <-> b < a.
Proof. unfold gtb. destruct (Rlt_dec b a); split; intros; try discriminate; auto; contradiction. Qed.
Lemma gtb_false (a b : R) : gtb a b = false <-> a <= b.
Proof.
  unfold gtb. destruct (Rlt_dec b a); split; intros; try discriminate;
    try reflexivity; lra.
Qed.
Lemma ltb_true (a b : R) : ltb a b = true <-> a < b.
Proof. unfold ltb. destruct (Rlt_dec a b); split; intros; try discriminate; auto; contradiction. Qed.
Lemma ltb_false (a b : R) : ltb a b = false <-> b <= a.
Proof.
  unfold ltb. destruct (Rlt_dec a b); split; intros; try discriminate;
    try reflexivity; lra.
Qed.
Lemma zero_decimal : 0.0 = 0.
Proof. decimals. lra. Qed.
Lemma one_decimal : 1.0 = 1.
Proof. decimals. lra. Qed.

(** X17: the command limit of [PIDController::update] is a symmetric
    clamp: a limit that is not positive switches it off; a positive limit
    maps the command to the nearest value in [[-limit, limit]], so its
    magnitude is at most the limit and a command within the limit is
    kept. *)
Theorem limited_is_clamp (c : t) (new_input : R) :
  (limit c <= 0 -> limited c new_input = new_input)
  /\ (0 < limit c ->
      limited c new_input = Rmax (- limit c) (Rmin (limit c) new_input)
      /\ Rabs (limited c new_input) <= limit c
      /\ (Rabs new_input <= limit c -> limited c new_input = new_input)).
Proof.
  unfold limited. rewrite zero_decimal, one_decimal.
  split.
  - intros H. apply gtb_false in H. rewrite H. reflexivity.
  - intros H. pose proof H as H'. apply gtb_true in H'. rewrite H'.
    cbn [andb].
    destruct (gtb (Rabs new_input) (limit c)) eqn:E.
    + apply gtb_true in E.
      destruct (ltb new_input 0) eqn:E0.
      * apply ltb_true in E0. rewrite Rabs_left in E by exact E0.
        replace (-1.0 * limit c) with (- limit c) by (decimals; field).
        repeat split.
        -- rewrite Rmin_right by lra. rewrite Rmax_left by lra. reflexivity.
        -- rewrite Rabs_left by lra. lra.
        -- intros Hc. rewrite Rabs_left in Hc by exact E0. lra.
      * apply ltb_false in E0. rewrite Rabs_right in E by lra.
        replace (1 * limit c) with (limit c) by ring.
        repeat split.
        -- rewrite Rmin_left by lra. rewrite Rmax_right by lra. reflexivity.
        -- rewrite Rabs_right by lra. lra.
        -- intros Hc. rewrite Rabs_right in Hc by lra. lra.
    + apply gtb_false in E.
      assert (E1 : - limit c <= new_input <= limit c)
        by (revert E; unfold Rabs; destruct (Rcase_abs new_input); lra).
      repeat split.
      * rewrite Rmin_right by lra. rewrite Rmax_right by lra. reflexivity.
      * exact E.
Qed.

Lemma limited_is_clamp_witness :
  limited Sample.pid0 5 = Rmax (- limit Sample.pid0) (Rmin (limit Sample.pid0) 5).
Proof.
  apply (limited_is_clamp Sample.pid0 5). simpl. lra.
Defined.

(** X20: the state after [reset] is an equilibrium: with zero command,
    zero measurement and zero measured rate, any series of updates, for
    any gains, limit, time constant and steps, leaves output, input,
    rate and the three errors at zero. *)
Theorem reset_is_equilibrium (c : t) (l : list sample) :
  Forall (fun s => command s = 0 /\ measured s = 0 /\ measured_rate s = 0) l ->
  let c' := run (reset c) l in
  output c' = 0 /\ input c' = 0 /\ dinput c' = 0
  /\ p c' = 0 /\ i c' = 0 /\ d c' = 0.
Proof.
  intros H. cbv zeta.
  assert (G : forall c0 : t,
             output c0 = 0 /\ input c0 = 0 /\ dinput c0 = 0
             /\ p c0 = 0 /\ i c0 = 0 /\ d c0 = 0 ->
             output (run c0 l) = 0 /\ input (run c0 l) = 0
             /\ dinput (run c0 l) = 0 /\ p (run c0 l) = 0
             /\ i (run c0 l) = 0 /\ d (run c0 l) = 0).
  { induction H as [| s l (Hc & Hm & Hr) Hs IH]; intros c0 H0; [exact H0 |].
    unfold run. simpl. apply IH.
    destruct H0 as (_ & Hi & Hdi & _ & Hii & _).
    rewrite Hc, Hm, Hr. unfold update.
    assert (Hlim : limited c0 0 = 0).
    { unfold limited. rewrite Rabs_R0.
      destruct (gtb (limit c0) 0.0 && gtb 0 (limit c0)) eqn:E;
        [| reflexivity].
      apply andb_true_iff in E. destruct E as [E1 E2].
      apply gtb_true in E1. apply gtb_true in E2.
      rewrite zero_decimal in E1. lra. }
    rewrite Hlim, Hi, Hdi, Hii.
    destruct (gtb (step s + time_constant c0) 0.0) eqn:E; cbn.
    - apply gtb_true in E. rewrite zero_decimal in E.
      replace ((0 - 0) / (step s + time_constant c0)) with 0 by (field; lra).
      replace ((step s * 0 + time_constant c0 * 0)
               / (step s + time_constant c0)) with 0 by (field; lra).
      repeat split; ring.
    - repeat split; ring. }
  apply G. cbn. auto 10.
Qed.

Lemma reset_is_equilibrium_witness :
  output (run (reset Sample.pid0) Sample.at_standstill) = 0.
Proof.
  apply (reset_is_equilibrium Sample.pid0 Sample.at_standstill).
  repeat constructor.
Defined.

(** X21: the thrust that [UpdateChild] applies is never negative, never
    exceeds a positive [max_force_], and equals
    [mass * (pid + load_factor * gravity)] whenever that value is within
    these limits (a [max_force_] that is not positive means no upper
    limit). *)
Theorem thrust_within_limits (max_force_ mass pid load_factor gravity : R) :
  let raw := mass * (pid + load_factor * gravity) in
  let f := thrust max_force_ mass pid load_factor gravity in
  0 <= f
  /\ (0 < max_force_ -> f <= max_force_)
  /\ (0 <= raw -> (max_force_ <= 0 \/ raw <= max_force_) -> f = raw)
  /\ (raw < 0 -> f = 0).
Proof.
  cbv zeta. unfold thrust. rewrite zero_decimal.
  set (raw := mass * (pid + load_factor * gravity)).
  destruct (gtb max_force_ 0) eqn:E1; destruct (gtb raw max_force_) eqn:E2;
    cbn [andb];
    try apply gtb_true in E1; try apply gtb_false in E1;
    try apply gtb_true in E2; try apply gtb_false in E2;
    match goal with
    | |- context [ltb ?a 0] =>
        destruct (ltb a 0) eqn:E3;
        [apply ltb_true in E3 | apply ltb_false in E3]
    end;
    repeat split; intros; try lra;
    try match goal with
      | h : _ \/ _ |- _ => destruct h; lra
      end.
Qed.

Lemma thrust_within_limits_witness :
  thrust 30 1.5 100 1 9.81 <= 30.
Proof.
  apply (thrust_within_limits 30 1.5 100 1 9.81). lra.
Defined.

End PIDFacts.
